(** * Speech-to-text: the upload pipeline and the FFmpeg bootstrap script

    A shallow embedding of [app.py] (format dispatch, conversion,
    transcription, the scoped temporary directory) and of
    [setup_ffmpeg.py] (the preflight script), with the properties the
    specification states about them.

    Conventions.
    - Python [str] and [bytes] are byte strings ([string], [list byte]);
      a [str] is its UTF-8 encoding.  [lower] acts on ASCII letters.
    - Python objects handed back by the recognition model are values of
      [PyVal]; exceptions are values of [PyExc].
    - Everything the program does not compute itself (the external tool,
      the recognition model, the interpreter's [repr] of a [str] and [str]
      of an exception) is a field of an environment record the definitions
      are parametric in.
    - Effects are explicit: a computation maps a world to an outcome
      (a value or a raised exception) and a new world.  The world holds the
      file system, the command search path, the model cache and a
      chronological log of user-interface calls and external invocations. *)

From Stdlib Require Import List String Ascii ZArith Bool Lia DecimalString.
From Stdlib.Strings Require Import Byte.
Import ListNotations.
Open Scope string_scope.

Set Implicit Arguments.
Set Warnings "-register-all".

(* ================================================================== *)
(** * Python runtime: strings, paths, objects *)
(* ================================================================== *)

Module Py.

Definition bytes := list byte.

Definition nl : string := String (ascii_of_nat 10) "".

(** ** [str] methods *)

Definition is_upper (c : ascii) : bool :=
  (65 <=? nat_of_ascii c)%nat && (nat_of_ascii c <=? 90)%nat.

Definition lower_char (c : ascii) : ascii :=
  if is_upper c then ascii_of_nat (nat_of_ascii c + 32) else c.

(** [s.lower()] *)
Fixpoint lower (s : string) : string :=
  match s with
  | EmptyString => EmptyString
  | String c r => String (lower_char c) (lower r)
  end.

(** [s.split(sep)] for a one-character separator: never empty. *)
Fixpoint split (sep : ascii) (s : string) : list string :=
  match s with
  | EmptyString => [EmptyString]
  | String c r =>
      if Ascii.eqb c sep then EmptyString :: split sep r
      else match split sep r with
           | h :: t => String c h :: t
           | [] => [String c EmptyString]
           end
  end.

(** [s.startswith(c)] and [s.endswith(c)] for a one-character [c]. *)
Definition startswith (c : ascii) (s : string) : bool :=
  match s with
  | String d _ => Ascii.eqb d c
  | EmptyString => false
  end.

Fixpoint endswith (c : ascii) (s : string) : bool :=
  match s with
  | EmptyString => false
  | String d EmptyString => Ascii.eqb d c
  | String _ r => endswith c r
  end.

Fixpoint contains_char (c : ascii) (s : string) : bool :=
  match s with
  | EmptyString => false
  | String d r => Ascii.eqb d c || contains_char c r
  end.

(** [needle in s] *)
Fixpoint contains (needle s : string) : bool :=
  String.prefix needle s ||
  match s with
  | EmptyString => false
  | String _ r => contains needle r
  end.

(** ** [os.path.join] (POSIX) with two arguments *)

Definition os_path_join (a b : string) : string :=
  if startswith "/" b then b
  else if (a =? "") || endswith "/" a then a ++ b
  else a ++ "/" ++ b.

(** ** [pathlib.PurePath]: [name] and [suffix] (POSIX flavour) *)

Definition is_part (c : string) : bool := negb ((c =? "") || (c =? ".")).

(** [Path(s).name]: the last component, empty and [.] components dropped. *)
Definition path_name (s : string) : string :=
  last (filter is_part (split "/" s)) "".

(** The text after the last dot of [s], and whether a dot occurs. *)
Fixpoint after_last_dot (s : string) : option string :=
  match s with
  | EmptyString => None
  | String c r =>
      match after_last_dot r with
      | Some t => Some t
      | None => if Ascii.eqb c "." then Some r else None
      end
  end.

(** [Path(s).suffix]: with [i = name.rfind('.')], [name[i:]] when
    [0 < i < len(name) - 1], else the empty string. *)
Definition path_suffix (s : string) : string :=
  let name := path_name s in
  match after_last_dot name with
  | Some ext =>
      if (ext =? "") || (String.length name =? S (String.length ext))%nat
      then "" else String "." ext
  | None => ""
  end.

(** ** [bytes.decode()]: strict UTF-8 *)

Definition in_range (lo hi : N) (b : byte) : bool :=
  (lo <=? Byte.to_N b)%N && (Byte.to_N b <=? hi)%N.

Definition cont := in_range 128 191.

(** Well-formed UTF-8 byte sequences (Unicode, table 3-7). *)
Fixpoint utf8_valid_fuel (fuel : nat) (bs : bytes) : bool :=
  match fuel with
  | O => match bs with [] => true | _ => false end
  | S fuel' =>
      match bs with
      | [] => true
      | b0 :: r0 =>
          if in_range 0 127 b0 then utf8_valid_fuel fuel' r0
          else match r0 with
          | [] => false
          | b1 :: r1 =>
              if in_range 194 223 b0 then cont b1 && utf8_valid_fuel fuel' r1
              else match r1 with
              | [] => false
              | b2 :: r2 =>
                  if in_range 224 239 b0 then
                    (if in_range 224 224 b0 then in_range 160 191 b1
                     else if in_range 237 237 b0 then in_range 128 159 b1
                     else cont b1)
                    && cont b2 && utf8_valid_fuel fuel' r2
                  else match r2 with
                  | [] => false
                  | b3 :: r3 =>
                      in_range 240 244 b0 &&
                      (if in_range 240 240 b0 then in_range 144 191 b1
                       else if in_range 244 244 b0 then in_range 128 143 b1
                       else cont b1)
                      && cont b2 && cont b3 && utf8_valid_fuel fuel' r3
                  end
              end
          end
      end
  end.

Definition utf8_valid (bs : bytes) : bool := utf8_valid_fuel (List.length bs) bs.

(** [b.decode()]: the text, or [None] where Python raises
    [UnicodeDecodeError]. *)
Definition decode (bs : bytes) : option string :=
  if utf8_valid bs then Some (string_of_list_byte bs) else None.

(** ** Objects *)

Inductive PyVal : Type :=
| PyNone
| PyBool (b : bool)
| PyInt (n : Z)
| PyStr (s : string)
| PyList (xs : list PyVal)
| PyDict (items : list (string * PyVal)).

(** [bool(v)] *)
Definition truthy (v : PyVal) : bool :=
  match v with
  | PyNone => false
  | PyBool b => b
  | PyInt n => negb (n =? 0)%Z
  | PyStr s => negb (s =? "")
  | PyList xs => match xs with [] => false | _ => true end
  | PyDict items => match items with [] => false | _ => true end
  end.

Definition isinstance_dict (v : PyVal) : bool :=
  match v with PyDict _ => true | _ => false end.

Definition isinstance_str (v : PyVal) : bool :=
  match v with PyStr _ => true | _ => false end.

(** [d[key]] on the items of a dict *)
Fixpoint dict_get (key : string) (items : list (string * PyVal)) : option PyVal :=
  match items with
  | [] => None
  | (k, v) :: r => if k =? key then Some v else dict_get key r
  end.

(** [key in d] *)
Definition dict_has (key : string) (items : list (string * PyVal)) : bool :=
  match dict_get key items with Some _ => true | None => false end.

(** [str(n)] for an [int] *)
Definition str_int (n : Z) : string := NilZero.string_of_int (Z.to_int n).

Section Repr.

(** [repr(s)] for a [str]: the interpreter's quoting and escaping. *)
Variable repr_str : string -> string.

(** [repr(v)] *)
Fixpoint repr (v : PyVal) : string :=
  match v with
  | PyNone => "None"
  | PyBool true => "True"
  | PyBool false => "False"
  | PyInt n => str_int n
  | PyStr s => repr_str s
  | PyList xs => "[" ++ String.concat ", " (map repr xs) ++ "]"
  | PyDict items =>
      "{" ++ String.concat ", "
               (map (fun kv : string * PyVal =>
                      let (k, x) := kv in repr_str k ++ ": " ++ repr x) items)
          ++ "}"
  end.

(** [str(v)] *)
Definition str (v : PyVal) : string :=
  match v with
  | PyStr s => s
  | _ => repr v
  end.

End Repr.

End Py.

(* ================================================================== *)
(** * Computations with a world and exceptions *)
(* ================================================================== *)

Module Eff.

Section StateExc.

Variables (W E : Type).

Inductive Outcome (A : Type) : Type :=
| Ret (a : A)
| Raise (e : E).

Definition M (A : Type) : Type := W -> Outcome A * W.

Definition ret A (a : A) : M A := fun w => (Ret a, w).

Definition raise A (e : E) : M A := fun w => (Raise A e, w).

Definition bind A B (m : M A) (k : A -> M B) : M B :=
  fun w =>
    match m w with
    | (Ret a, w') => k a w'
    | (Raise _ e, w') => (Raise B e, w')
    end.

(** [try: body / except ...]: [handler e] is the clause that matches
    [e], if one does; an exception no clause matches goes on. *)
Definition try_except A (body : M A) (handler : E -> option (M A)) : M A :=
  fun w =>
    match body w with
    | (Ret a, w') => (Ret a, w')
    | (Raise _ e, w') =>
        match handler e with
        | Some h => h w'
        | None => (Raise A e, w')
        end
    end.

End StateExc.

Arguments Ret {E A} a.
Arguments Raise {E A} e.
Arguments ret {W E A} a _.
Arguments raise {W E A} e _.
Arguments bind {W E A B} m k _.
Arguments try_except {W E A} body handler _.

End Eff.

Declare Scope py_scope.
Delimit Scope py_scope with py.
Notation "x <- m ;; k" := (Eff.bind m (fun x => k))
  (at level 61, m at next level, right associativity) : py_scope.
Notation "m ;; k" := (Eff.bind m (fun _ => k))
  (at level 61, right associativity) : py_scope.

(* ================================================================== *)
(** * The file system *)
(* ================================================================== *)

(** A POSIX tree without links.  A resolved path is the list of component
    names below the root.  The root and the temporary root [/tmp] exist in
    every file system; there are no quotas, modes or name-length limits. *)

Module FS.

Import Py.

Definition Path := list string.

Record FileSystem : Type := mkFS {
  dirs : list Path;
  files : list (Path * bytes)
}.

Definition path_eqb (p q : Path) : bool :=
  if list_eq_dec string_dec p q then true else false.

Definition tmp_root : Path := ["tmp"].

Definition is_dir (fs : FileSystem) (p : Path) : bool :=
  path_eqb p [] || path_eqb p tmp_root || existsb (path_eqb p) (dirs fs).

Fixpoint lookup (p : Path) (l : list (Path * bytes)) : option bytes :=
  match l with
  | [] => None
  | (q, data) :: r => if path_eqb p q then Some data else lookup p r
  end.

Definition is_file (fs : FileSystem) (p : Path) : bool :=
  match lookup p (files fs) with Some _ => true | None => false end.

Inductive Errno : Type := ENOENT | ENOTDIR | EISDIR | NulByte.

(** Directory lookup: from directory [cur], follow [comps]. *)
Fixpoint walk (fs : FileSystem) (cur : Path) (comps : list string) : Errno + Path :=
  match comps with
  | [] => inr cur
  | c :: rest =>
      if (c =? "") || (c =? ".") then walk fs cur rest
      else if c =? ".." then walk fs (removelast cur) rest
      else if is_dir fs (cur ++ [c])%list then walk fs (cur ++ [c])%list rest
      else if is_file fs (cur ++ [c])%list then inl ENOTDIR
      else inl ENOENT
  end.

Definition components (s : string) : list string :=
  filter (fun c => negb (c =? "")) (split "/" s).

(** Where a file named by the path string [s] lives (or would be created):
    every component but the last must lead through existing directories,
    and the last must name something that is not a directory.  Every path
    the program opens is absolute; lookup starts at the root. *)
Definition locate (fs : FileSystem) (s : string) : Errno + Path :=
  if contains_char zero s then inl NulByte
  else match rev (components s) with
       | [] => if s =? "" then inl ENOENT else inl EISDIR
       | name :: rinit =>
           match walk fs [] (rev rinit) with
           | inl e => inl e
           | inr cur =>
               if endswith "/" s || (name =? ".") || (name =? "..") then inl EISDIR
               else if is_dir fs (cur ++ [name])%list then inl EISDIR
               else inr (cur ++ [name])%list
           end
       end.

(** [open(s, "wb")] followed by one [write(data)] and the close. *)
Definition write_file (fs : FileSystem) (s : string) (data : bytes)
  : Errno + FileSystem :=
  match locate fs s with
  | inl e => inl e
  | inr p => inr (mkFS (dirs fs) ((p, data) :: files fs))
  end.


(** The path string of a resolved path. *)
Definition path_str (p : Path) : string :=
  String.concat "" (map (fun c => "/" ++ c) p).

(** *** Temporary directories *)

Definition longest (p : Path) : nat :=
  fold_right (fun c m => Nat.max (String.length c) m) 0%nat p.

Definition longest_all (ps : list Path) : nat :=
  fold_right (fun p m => Nat.max (longest p) m) 0%nat ps.

Fixpoint underscores (n : nat) : string :=
  match n with
  | O => EmptyString
  | S k => String "_" (underscores k)
  end.

(** [tempfile] draws random names until one is unused; the name drawn
    here is one that occurs nowhere in the file system. *)
Definition fresh_name (fs : FileSystem) : string :=
  "tmp" ++ underscores (S (Nat.max (longest_all (dirs fs))
                                   (longest_all (map fst (files fs))))).

(** [tempfile.mkdtemp()]: a new, empty directory under the temporary root. *)
Definition mkdtemp (fs : FileSystem) : Path * FileSystem :=
  let d := (tmp_root ++ [fresh_name fs])%list in
  (d, mkFS (d :: dirs fs) (files fs)).

Fixpoint is_prefix (d p : Path) : bool :=
  match d, p with
  | [], _ => true
  | c :: d', c' :: p' => (c =? c') && is_prefix d' p'
  | _ :: _, [] => false
  end.

(** [shutil.rmtree(d)]: [d] and everything below it. *)
Definition rmtree (fs : FileSystem) (d : Path) : FileSystem :=
  mkFS (filter (fun p => negb (is_prefix d p)) (dirs fs))
       (filter (fun e => negb (is_prefix d (fst e))) (files fs)).


End FS.

(* ================================================================== *)
(** * [app.py] *)
(* ================================================================== *)

Module App.

Import Py FS.

(** ** Exceptions *)

Inductive PyExc : Type :=
| FfmpegError (stderr : bytes)
    (** [ffmpeg.Error]: the tool ran and exited with a non-zero status *)
| OSError (e : Errno) (path : string)
    (** [FileNotFoundError], [NotADirectoryError], [IsADirectoryError];
        [ValueError] for an embedded NUL *)
| UnicodeDecodeError (data : bytes)
| ExternalError (cls msg : string)
    (** any other [Exception] raised inside a third-party call *)
| StopException.
    (** what [st.stop()] raises: a [BaseException] that is not an
        [Exception]; the script runner ends the run when it arrives *)

(** [isinstance(e, Exception)] *)
Definition is_Exception (e : PyExc) : bool :=
  match e with
  | StopException => false
  | _ => true
  end.

(** ** The log *)

Inductive Event : Type :=
| StError (msg : string)
| StInfo (msg : string)
| StSuccess (msg : string)
| StSpinner (msg : string)
| StSubheader (msg : string)
| StMarkdown (msg : string)
| StTextArea (label : string) (value : PyVal)
| StCode (body : PyVal)
| StStop
| CallConvertToWav (input_path output_path : string)
    (** entry of [AudioConverter.convert_to_wav] *)
| CallTranscribe (audio_path : string)
    (** entry of [SpeechToTextModel.transcribe] *)
| FfmpegRun (input_path output_path : string)
    (** the external tool is started *)
| AutoModelInit
    (** the recognition model is constructed *)
| ModelGenerate (input : string).
    (** the recognition model is run on a file *)

(** ** The world *)

Record World : Type := mkWorld {
  fs : FileSystem;
  ffmpeg_on_path : bool;   (** [shutil.which("ffmpeg") is not None] *)
  resource_cache : bool;   (** [st.cache_resource] holds the loaded model *)
  self_model : bool;       (** [speech_model.model is not None] *)
  log : list Event
}.

Definition set_fs (w : World) (f : FileSystem) : World :=
  mkWorld f (ffmpeg_on_path w) (resource_cache w) (self_model w) (log w).

Definition set_resource_cache (w : World) (b : bool) : World :=
  mkWorld (fs w) (ffmpeg_on_path w) b (self_model w) (log w).

Definition set_self_model (w : World) (b : bool) : World :=
  mkWorld (fs w) (ffmpeg_on_path w) (resource_cache w) b (log w).

Definition add_event (w : World) (e : Event) : World :=
  mkWorld (fs w) (ffmpeg_on_path w) (resource_cache w) (self_model w)
          (log w ++ [e])%list.

(** ** The environment *)

Inductive FfmpegResult : Type :=
| FfDone (out : bytes)          (** exit status 0, [out] written to the output path *)
| FfExit (stderr : bytes)       (** non-zero exit status, with the captured diagnostics *)
| FfRaises (cls msg : string).  (** the invocation itself raised *)

Inductive LoadResult : Type :=
| Loaded
| LoadRaises (cls msg : string).

Inductive GenResult : Type :=
| GenReturns (result : option (list PyVal))  (** a list of results, or [None] *)
| GenRaises (cls msg : string).

Record Env : Type := mkEnv {
  repr_str : string -> string;                 (** [repr] of a [str] *)
  exc_str : PyExc -> string;                   (** [str(e)] *)
  ffmpeg_tool : FileSystem -> string -> string -> FfmpegResult;
  automodel_init : LoadResult;
  model_generate : FileSystem -> string -> GenResult
}.

(** ** Computations *)

Import Eff.

Definition M (A : Type) : Type := Eff.M World PyExc A.

Open Scope py_scope.

Definition emit (e : Event) : M unit := fun w => (Ret tt, add_event w e).

(** [with tempfile.TemporaryDirectory() as temp_dir: body]: the directory
    is removed when the block is left, by a return or by an exception. *)
Definition with_TemporaryDirectory {A} (body : string -> M A) : M A :=
  fun w =>
    let (d, fs1) := mkdtemp (fs w) in
    let (r, w') := body (path_str d) (set_fs w fs1) in
    (r, set_fs w' (rmtree (fs w') d)).

(** ** Streamlit calls *)

Definition st_error (msg : string) : M unit := emit (StError msg).
Definition st_info (msg : string) : M unit := emit (StInfo msg).
Definition st_success (msg : string) : M unit := emit (StSuccess msg).
Definition st_spinner (msg : string) : M unit := emit (StSpinner msg).

Definition st_stop {A} : M A := emit StStop ;; raise StopException.

(** ** Constants *)

Definition FUNASR_SUPPORTED_FORMATS : list string :=
  [".wav"; ".mp3"; ".flac"; ".m4a"; ".ogg"].

Definition ACCEPTED_FORMATS : list string :=
  [".wav"; ".mp3"; ".flac"; ".m4a"; ".ogg"; ".wma"; ".aac";
   ".mp4"; ".avi"; ".mkv"; ".mov"; ".wmv"; ".webm"; ".3gp"].

(** [x in formats] *)
Definition mem (x : string) (formats : list string) : bool :=
  existsb (String.eqb x) formats.

Definition ffmpeg_missing_message : string :=
  "❌ **FFmpeg is not installed or not found in PATH.**" ++ nl ++ nl ++
  "FFmpeg is required to convert video files and unsupported audio formats." ++ nl ++ nl ++
  "**Installation Instructions:**" ++ nl ++
  "- **Ubuntu/Debian:** `sudo apt update && sudo apt install ffmpeg`" ++ nl ++
  "- **macOS:** `brew install ffmpeg`" ++ nl ++
  "- **Windows:** Download from [ffmpeg.org](https://ffmpeg.org/download.html) and add to PATH" ++ nl ++ nl ++
  "After installing FFmpeg, restart the application.".

Record UploadedFile : Type := mkUpload {
  name : string;
  getbuffer : bytes
}.

Section Program.

Variable env : Env.

(** ** Third-party calls *)

(** [AutoModel(model=..., vad_model=..., punc_model=...)] *)
Definition AutoModel : M unit :=
  emit AutoModelInit ;;
  match automodel_init env with
  | Loaded => ret tt
  | LoadRaises cls msg => raise (ExternalError cls msg)
  end.

(** [model.generate(input=audio_path)] *)
Definition generate (audio_path : string) : M (option (list PyVal)) :=
  emit (ModelGenerate audio_path) ;;
  fun w =>
    match model_generate env (fs w) audio_path with
    | GenReturns result => (Ret result, w)
    | GenRaises cls msg => (Raise (ExternalError cls msg), w)
    end.

(** [ffmpeg.input(i).output(o, acodec='pcm_s16le', ac=1, ar='16000')
      .overwrite_output().run(capture_stdout=True, capture_stderr=True,
      quiet=True)].  A run that ends with status 0 has written its output
    file (the disk is left as it is where the output path names no
    file). *)
Definition ffmpeg_run (input_path output_path : string) : M unit :=
  emit (FfmpegRun input_path output_path) ;;
  fun w =>
    match ffmpeg_tool env (fs w) input_path output_path with
    | FfDone out =>
        match write_file (fs w) output_path out with
        | inr fs' => (Ret tt, set_fs w fs')
        | inl _ => (Ret tt, w)
        end
    | FfExit stderr => (Raise (FfmpegError stderr), w)
    | FfRaises cls msg => (Raise (ExternalError cls msg), w)
    end.

(** [with open(path, "wb") as f: f.write(data)] *)
Definition open_wb_write (path : string) (data : bytes) : M unit :=
  fun w =>
    match write_file (fs w) path data with
    | inr fs' => (Ret tt, set_fs w fs')
    | inl e => (Raise (OSError e path), w)
    end.

(** ** [load_funasr_model], under [@st.cache_resource] *)

Definition load_funasr_model : M unit :=
  fun w =>
    if resource_cache w then (Ret tt, w)
    else
      (try_except
         (st_spinner "Loading speech recognition model... This may take a moment." ;;
          AutoModel ;;
          fun w' => (Ret tt, set_resource_cache w' true))
         (fun e =>
            if is_Exception e then
              Some (st_error ("Error loading model: " ++ exc_str env e) ;; st_stop)
            else None)) w.

(** ** [AudioConverter] *)

Definition is_ffmpeg_available : M bool :=
  fun w => (Ret (ffmpeg_on_path w), w).

Definition convert_to_wav (input_path output_path : string) : M bool :=
  emit (CallConvertToWav input_path output_path) ;;
  available <- is_ffmpeg_available ;;
  if negb available then
    st_error ffmpeg_missing_message ;;
    ret false
  else
    try_except
      (ffmpeg_run input_path output_path ;;
       ret true)
      (fun e =>
         match e with
         | FfmpegError stderr =>
             Some (match decode stderr with
                   | Some text =>
                       st_error ("FFmpeg conversion error: " ++ text) ;;
                       ret false
                   | None => raise (UnicodeDecodeError stderr)
                   end)
         | _ =>
             if is_Exception e then
               Some (st_error ("Unexpected error during conversion: " ++ exc_str env e) ;;
                     ret false)
             else None
         end).

(** ** [SpeechToTextModel] *)

Definition get_model : M unit :=
  fun w =>
    if self_model w then (Ret tt, w)
    else (load_funasr_model ;; fun w' => (Ret tt, set_self_model w' true)) w.

(** The extraction reads: [result and len(result) > 0] is a non-empty
    list, [first] is [result[0]]; a [PyDict] whose items hold [text] is
    [isinstance(first, dict) and 'text' in first], and the value found is
    [first['text']], returned as it is. *)
Definition transcribe (audio_path : string) : M PyVal :=
  emit (CallTranscribe audio_path) ;;
  try_except
    (get_model ;;
     result <- generate audio_path ;;
     match result with
     | Some (first :: _) =>
         match first with
         | PyDict items =>
             match dict_get "text" items with
             | Some text => ret text
             | None => ret (PyStr (str (repr_str env) first))
             end
         | PyStr s => ret (PyStr s)
         | _ => ret (PyStr (str (repr_str env) first))
         end
     | _ => ret PyNone
     end)
    (fun e =>
       if is_Exception e then
         Some (st_error ("Error during transcription: " ++ exc_str env e) ;;
               ret PyNone)
       else None).

(** ** [process_audio_file] *)

(** Lines 184-186: the upload is written under its declared name. *)
Definition save_upload (temp_dir : string) (uploaded_file : UploadedFile) : M string :=
  let input_path := os_path_join temp_dir (name uploaded_file) in
  open_wb_write input_path (getbuffer uploaded_file) ;;
  ret input_path.

(** Lines 202-206: the transcription of the chosen file is the result. *)
Definition perform_transcription (transcription_path : string) : M PyVal :=
  st_spinner "Transcribing audio..." ;;
  transcription <- transcribe transcription_path ;;
  ret transcription.

(** Lines 188-206: the format dispatch, the conversion and the
    transcription. *)
Definition transcribe_saved (file_extension temp_dir input_path : string) : M PyVal :=
  if mem file_extension FUNASR_SUPPORTED_FORMATS then
    perform_transcription input_path
  else
    st_info ("Converting " ++ file_extension ++ " to WAV format...") ;;
    let output_path := os_path_join temp_dir "converted.wav" in
    converted <- convert_to_wav input_path output_path ;;
    if negb converted then ret PyNone
    else
      st_success "Conversion successful!" ;;
      perform_transcription output_path.

Definition process_audio_file (uploaded_file : UploadedFile) : M PyVal :=
  let file_extension := lower (path_suffix (name uploaded_file)) in
  with_TemporaryDirectory (fun temp_dir =>
    input_path <- save_upload temp_dir uploaded_file ;;
    transcribe_saved file_extension temp_dir input_path).

(** ** [main], once a file is uploaded and the button is pressed
    (lines 246-267) *)

Definition main_transcribe_pressed (uploaded_file : UploadedFile) : M unit :=
  transcription <- process_audio_file uploaded_file ;;
  if truthy transcription then
    st_success "✅ Transcription completed!" ;;
    emit (StSubheader "Transcription Result") ;;
    emit (StTextArea "Transcribed Text" transcription) ;;
    emit (StMarkdown "### 📋 Copy to Clipboard") ;;
    emit (StCode transcription) ;;
    st_info "💡 Click on the code block above to copy the text to your clipboard."
  else
    st_error "❌ Transcription failed. Please try a different file.".

End Program.

End App.

(* ================================================================== *)
(** * [setup_ffmpeg.py] *)
(* ================================================================== *)

Module SetupFfmpeg.

Import Py Eff.

(** ** Subprocesses *)

Inductive Command : Type :=
| FfmpegVersion     (** [ffmpeg -version] *)
| AptGetUpdate      (** [sudo apt-get update -qq] *)
| AptGetInstall.    (** [sudo apt-get install -y -qq ffmpeg] *)

Definition argv (c : Command) : list string :=
  match c with
  | FfmpegVersion => ["ffmpeg"; "-version"]
  | AptGetUpdate => ["sudo"; "apt-get"; "update"; "-qq"]
  | AptGetInstall => ["sudo"; "apt-get"; "install"; "-y"; "-qq"; "ffmpeg"]
  end.

Inductive ProcResult : Type :=
| Completed (returncode : Z) (stdout : string)
| TimedOut                      (** the time budget ran out *)
| NoSuchProgram                 (** the executable was not found *)
| Failed (cls msg : string).    (** any other [Exception] *)

Inductive PyExc : Type :=
| CalledProcessError (returncode : Z) (cmd : list string)
| TimeoutExpired (cmd : list string)
| FileNotFoundError (cmd : list string)
| OtherException (cls msg : string).

(** ** The host *)

Record Host : Type := mkHost {
  ffmpeg_version_run : ProcResult;
  apt_get_update_run : ProcResult;
  apt_get_install_run : ProcResult;
  (** whether the install command, however it ended, left [ffmpeg] on
      the command search path *)
  apt_get_install_places_ffmpeg : bool;
  exc_str : PyExc -> string      (** [str(e)] *)
}.

Record World : Type := mkWorld {
  ffmpeg_on_path : bool;             (** [shutil.which("ffmpeg") is not None] *)
  environ : list (string * string);  (** [os.environ] *)
  platform_system : string;          (** [platform.system()] *)
  platform_platform : string;        (** [platform.platform()] *)
  printed : list string;             (** the [print] calls, in order *)
  started : list Command             (** the commands given to [subprocess.run], in order *)
}.

Definition M (A : Type) : Type := Eff.M World PyExc A.

Open Scope py_scope.

Definition print (line : string) : M unit :=
  fun w => (Ret tt,
            mkWorld (ffmpeg_on_path w) (environ w) (platform_system w)
                    (platform_platform w) (printed w ++ [line])%list (started w)).

Definition get {A} (f : World -> A) : M A := fun w => (Ret (f w), w).

Section Script.

Variable host : Host.

(** [subprocess.run(argv, check=check, capture_output=True, timeout=...)]:
    the standard output of a completed process. *)
Definition subprocess_run (c : Command) (check : bool) : M string :=
  fun w =>
    let on_path :=
      match c, apt_get_install_run host with
      | AptGetInstall, NoSuchProgram => ffmpeg_on_path w
      | AptGetInstall, _ => ffmpeg_on_path w || apt_get_install_places_ffmpeg host
      | _, _ => ffmpeg_on_path w
      end in
    let w' := mkWorld on_path (environ w) (platform_system w)
                      (platform_platform w) (printed w) (started w ++ [c])%list in
    match (match c with
           | FfmpegVersion => ffmpeg_version_run host
           | AptGetUpdate => apt_get_update_run host
           | AptGetInstall => apt_get_install_run host
           end) with
    | Completed returncode stdout =>
        if check && negb (returncode =? 0)%Z
        then (Raise (CalledProcessError returncode (argv c)), w')
        else (Ret stdout, w')
    | TimedOut => (Raise (TimeoutExpired (argv c)), w')
    | NoSuchProgram => (Raise (FileNotFoundError (argv c)), w')
    | Failed cls msg => (Raise (OtherException cls msg), w')
    end.

(** [os.environ.get(key)] *)
Fixpoint environ_get (key : string) (env : list (string * string)) : option string :=
  match env with
  | [] => None
  | (k, v) :: r => if k =? key then Some v else environ_get key r
  end.

Fixpoint repeat_str (s : string) (n : nat) : string :=
  match n with
  | O => EmptyString
  | S k => s ++ repeat_str s k
  end.

Definition rule : string := repeat_str "=" 60.

Definition is_ffmpeg_installed : M bool := get ffmpeg_on_path.

Definition install_ffmpeg_linux : M bool :=
  try_except
    (print "Attempting to install FFmpeg using apt-get..." ;;
     subprocess_run AptGetUpdate true ;;
     subprocess_run AptGetInstall true ;;
     print "✅ FFmpeg installed successfully!" ;;
     ret true)
    (fun e =>
       match e with
       | CalledProcessError _ _ =>
           Some (print ("❌ Failed to install FFmpeg: " ++ exc_str host e) ;;
                 ret false)
       | TimeoutExpired _ =>
           Some (print "❌ Installation timed out" ;;
                 ret false)
       | FileNotFoundError _ =>
           Some (print "❌ apt-get not found. Please install FFmpeg manually." ;;
                 ret false)
       | OtherException _ _ =>
           Some (print ("❌ Unexpected error during installation: " ++ exc_str host e) ;;
                 ret false)
       end).

Definition check_streamlit_cloud : M bool :=
  get (fun w =>
         match environ_get "STREAMLIT_SHARING_MODE" (environ w) with
         | Some _ => true
         | None =>
             match environ_get "STREAMLIT_SERVER_HEADLESS" (environ w) with
             | Some v => v =? "true"
             | None => false
             end
         end).

(** The block of lines 120-136: [Some b] when it returns [b], [None] when
    control reaches the manual instructions below it. *)
Definition attempt_installation : M (option bool) :=
  system <- get (fun w => lower (platform_system w)) ;;
  if system =? "linux" then
    platform_name <- get platform_platform ;;
    print (nl ++ "🐧 Detected Linux system: " ++ platform_name) ;;
    installed <- install_ffmpeg_linux ;;
    if installed then
      available <- is_ffmpeg_installed ;;
      if available then
        print "✅ FFmpeg is now available!" ;;
        print rule ;;
        ret (Some true)
      else
        print "⚠️  Installation completed but FFmpeg still not in PATH" ;;
        ret None
    else ret None
  else
    print (nl ++ "⚠️  Unsupported system for auto-installation: " ++ system) ;;
    ret None.

Definition setup_ffmpeg : M bool :=
  print rule ;;
  print "FFmpeg Setup Check" ;;
  print rule ;;
  installed <- is_ffmpeg_installed ;;
  if installed then
    print "✅ FFmpeg is already installed and available!" ;;
    try_except
      (stdout <- subprocess_run FfmpegVersion false ;;
       let version_line := hd EmptyString (split (ascii_of_nat 10) stdout) in
       print ("Version: " ++ version_line))
      (fun _ => Some (ret tt)) ;;
    print rule ;;
    ret true
  else
    print "⚠️  FFmpeg not found in PATH" ;;
    cloud <- check_streamlit_cloud ;;
    if cloud then
      print (nl ++ "📦 Running in Streamlit Cloud environment") ;;
      print "FFmpeg should be installed via packages.txt file" ;;
      print "If this message persists, ensure packages.txt contains 'ffmpeg'" ;;
      print rule ;;
      ret false
    else
      returned <- attempt_installation ;;
      match returned with
      | Some b => ret b
      | None =>
          print (nl ++ rule) ;;
          print "MANUAL INSTALLATION REQUIRED" ;;
          print rule ;;
          print (nl ++ "Please install FFmpeg manually:") ;;
          print (nl ++ "**Ubuntu/Debian:**") ;;
          print "  sudo apt update && sudo apt install ffmpeg" ;;
          print (nl ++ "**macOS:**") ;;
          print "  brew install ffmpeg" ;;
          print (nl ++ "**Windows:**") ;;
          print "  Download from https://ffmpeg.org/download.html" ;;
          print "  Add to PATH after installation" ;;
          print (nl ++ "**Streamlit Cloud:**") ;;
          print "  Ensure packages.txt file exists with 'ffmpeg' listed" ;;
          print rule ;;
          ret false
      end.

(** [if __name__ == "__main__"]: the exit status of the process, or the
    exception that ends it. *)
Definition main : M Z :=
  success <- setup_ffmpeg ;;
  ret (if success then 0%Z else 1%Z).

End Script.

End SetupFfmpeg.

(* ================================================================== *)
(** * Observations on the log, and the specification's statements *)
(* ================================================================== *)

Module Observe.

Import Py FS Eff App.

(** The calls of [convert_to_wav], of [transcribe] and the runs of the
    external tool recorded in a log, in order. *)
Fixpoint calls_convert (l : list Event) : list (string * string) :=
  match l with
  | [] => []
  | CallConvertToWav i o :: r => (i, o) :: calls_convert r
  | _ :: r => calls_convert r
  end.

Fixpoint calls_transcribe (l : list Event) : list string :=
  match l with
  | [] => []
  | CallTranscribe p :: r => p :: calls_transcribe r
  | _ :: r => calls_transcribe r
  end.

Fixpoint tool_runs (l : list Event) : list (string * string) :=
  match l with
  | [] => []
  | FfmpegRun i o :: r => (i, o) :: tool_runs r
  | _ :: r => tool_runs r
  end.

(** The messages shown with [st.error]. *)
Fixpoint errors_shown (l : list Event) : list string :=
  match l with
  | [] => []
  | StError msg :: r => msg :: errors_shown r
  | _ :: r => errors_shown r
  end.

(** The model can be obtained: it is held already, or its construction
    succeeds. *)
Definition model_ready (env : Env) (w : World) : Prop :=
  self_model w = true \/ resource_cache w = true \/ automodel_init env = Loaded.

(** [isinstance(v, dict) and 'text' in v] *)
Definition has_text_field (v : PyVal) : bool :=
  match v with
  | PyDict items => dict_has "text" items
  | _ => false
  end.


(** Neither step ends in an exception: each returns its failure value. *)
Definition never_propagates (env : Env) : Prop :=
  (forall input_path output_path w,
      exists b, fst (convert_to_wav env input_path output_path w) = Ret b) /\
  (forall audio_path w,
      exists v, fst (transcribe env audio_path w) = Ret v).

Section Request.

Variables (env : Env) (uploaded_file : UploadedFile) (w : World).

(** The scoped directory of the request, the world its block starts in,
    and the paths the block computes. *)
Definition scoped_dir : Path := fst (mkdtemp (fs w)).
Definition temp_dir : string := path_str scoped_dir.
Definition world_in_block : World := set_fs w (snd (mkdtemp (fs w))).
Definition input_path : string := os_path_join temp_dir (name uploaded_file).
Definition output_path : string := os_path_join temp_dir "converted.wav".
Definition file_extension : string := lower (path_suffix (name uploaded_file)).

(** The world after the upload is saved, and the world in which the
    converter is called (after the [st.info] line). *)
Definition world_saved : World := snd (save_upload temp_dir uploaded_file world_in_block).

(** Leaving the [with] block: the scoped directory is removed. *)
Definition leave_block {A} (x : Outcome PyExc A * World) : Outcome PyExc A * World :=
  (fst x, set_fs (snd x) (rmtree (fs (snd x)) scoped_dir)).

Definition saved : Prop :=
  fst (save_upload temp_dir uploaded_file world_in_block) = Ret input_path.



End Request.

(** A run ends with outcome [o] and has added the events [added] to an
    empty log. *)
Definition run_is
           (run : Outcome PyExc PyVal * World) (o : Outcome PyExc PyVal)
           (added : list Event) : Prop :=
  fst run = o /\ log (snd run) = added.

End Observe.

(* ================================================================== *)
(** * The upload widget and further observations *)
(* ================================================================== *)

Module Widget.

Import Py FS Eff App.

(** [s.lstrip(c)] for a one-character [c] *)
Fixpoint lstrip (c : ascii) (s : string) : string :=
  match s with
  | EmptyString => EmptyString
  | String d r => if Ascii.eqb d c then lstrip c r else s
  end.

(** [main], line 235: the [type=] argument of [st.file_uploader],
    [[fmt.lstrip('.') for fmt in ACCEPTED_FORMATS]]. *)
Definition uploader_types : list string := map (lstrip ".") ACCEPTED_FORMATS.

(** The number of constructions of the recognition model in a log. *)
Fixpoint model_inits (l : list Event) : nat :=
  match l with
  | [] => 0%nat
  | AutoModelInit :: r => S (model_inits r)
  | _ :: r => model_inits r
  end.

(** The files the recognition model was run on, in order. *)
Fixpoint model_runs (l : list Event) : list string :=
  match l with
  | [] => []
  | ModelGenerate p :: r => p :: model_runs r
  | _ :: r => model_runs r
  end.

Definition failure_message : string :=
  "❌ Transcription failed. Please try a different file.".

End Widget.

(* ================================================================== *)
(** * Sample environments and worlds *)
(* ================================================================== *)

Module Samples.

Import Py FS.

Definition quote (s : string) : string := "'" ++ s ++ "'".

Definition app_exc_str (e : App.PyExc) : string :=
  match e with
  | App.ExternalError _ msg => msg
  | App.FfmpegError _ => "ffmpeg error (see stderr output for detail)"
  | _ => ""
  end.

(** An environment whose tool and model answer the same whatever they
    are asked. *)
Definition app_env (tool : App.FfmpegResult) (load : App.LoadResult)
           (answer : App.GenResult) : App.Env :=
  App.mkEnv quote app_exc_str (fun _ _ _ => tool) load (fun _ _ => answer).

Definition hello : App.GenResult :=
  App.GenReturns (Some [PyDict [("key", PyStr "clip"); ("text", PyStr "hello")]]).

Definition wav_bytes : bytes := [x52; x49; x46; x46].

Definition env_ok : App.Env := app_env (App.FfDone wav_bytes) App.Loaded hello.



(** The model cannot be constructed. *)
Definition env_no_model : App.Env :=
  app_env (App.FfDone wav_bytes) (App.LoadRaises "OSError" "model files not found") hello.

(** The model fails on the audio; the tool exits with a diagnostic. *)
Definition env_failing : App.Env :=
  app_env (App.FfExit [x62; x61; x64]) App.Loaded
          (App.GenRaises "RuntimeError" "decoding failed").

(** An empty disk, the model not yet loaded; the tool present or not. *)
Definition app_world (tool_present : bool) : App.World :=
  App.mkWorld (mkFS [] []) tool_present false false [].

Definition upload (name : string) : App.UploadedFile :=
  App.mkUpload name [x01; x02; x03].

Definition clip : App.UploadedFile := upload "clip.mp4".
Definition speech : App.UploadedFile := upload "speech.wav".

Definition setup_exc_str (e : SetupFfmpeg.PyExc) : string :=
  match e with
  | SetupFfmpeg.OtherException _ msg => msg
  | _ => ""
  end.

Definition setup_world (tool_present : bool) (environ : list (string * string))
           (system : string) : SetupFfmpeg.World :=
  SetupFfmpeg.mkWorld tool_present environ system "" [] [].

(** A host on which both package-manager commands succeed and the tool
    is installed. *)
Definition host_ok : SetupFfmpeg.Host :=
  SetupFfmpeg.mkHost (SetupFfmpeg.Completed 0 "ffmpeg version 6.0")
                     (SetupFfmpeg.Completed 0 "") (SetupFfmpeg.Completed 0 "")
                     true setup_exc_str.

(** A host on which the install command unpacks the tool and then ends
    with a non-zero status. *)
Definition host_partial : SetupFfmpeg.Host :=
  SetupFfmpeg.mkHost (SetupFfmpeg.Completed 0 "ffmpeg version 6.0")
                     (SetupFfmpeg.Completed 0 "") (SetupFfmpeg.Completed 100 "")
                     true setup_exc_str.

End Samples.

(* ================================================================== *)
(** * The definitions at work *)
(* ================================================================== *)

Example lower_ext : Py.lower ".MP4" = ".mp4".
Proof. reflexivity. Qed.

Example split_example : Py.split "/" "/tmp/a//b" = [""; "tmp"; "a"; ""; "b"].
Proof. reflexivity. Qed.

Example join_relative : Py.os_path_join "/tmp/tmpx" "clip.mp4" = "/tmp/tmpx/clip.mp4".
Proof. reflexivity. Qed.

Example join_absolute : Py.os_path_join "/tmp/tmpx" "/etc/clip.mp4" = "/etc/clip.mp4".
Proof. reflexivity. Qed.

Example suffix_examples :
  map Py.path_suffix ["speech.wav"; "a.tar.gz"; ".bashrc"; "noext"; "dot."; "d.x/clip.MP4"; "x.wav/"]
  = [".wav"; ".gz"; ""; ""; ""; ".MP4"; ".wav"].
Proof. reflexivity. Qed.

Example str_examples :
  map (Py.str (fun s => "'" ++ s ++ "'"))
      [Py.PyInt 42; Py.PyStr "hello"; Py.PyNone; Py.PyBool true; Py.PyInt (-7);
       Py.PyList [Py.PyInt 1; Py.PyStr "a"]; Py.PyDict [("k", Py.PyInt 1)]]
  = ["42"; "hello"; "None"; "True"; "-7"; "[1, 'a']"; "{'k': 1}"].
Proof. reflexivity. Qed.

Example decode_examples :
  Py.decode [x68; x69] = Some "hi" /\ Py.decode [xff] = None /\
  Py.decode [xc3; xa9] = Some (string_of_list_byte [xc3; xa9]) /\
  Py.decode [xc0; x80] = None /\ Py.decode [xed; xa0; x80] = None.
Proof. repeat split; reflexivity. Qed.

Example fs_demo :
  let (d, fs1) := FS.mkdtemp (FS.mkFS [] []) in
  FS.path_str d = "/tmp/tmp_" /\
  FS.locate fs1 "/tmp/tmp_/clip.mp4" = inr ["tmp"; "tmp_"; "clip.mp4"] /\
  FS.locate fs1 "/tmp/tmp_/a/clip.mp4" = inl FS.ENOENT /\
  FS.locate fs1 "/tmp/tmp_/../clip.mp4" = inr ["tmp"; "clip.mp4"] /\
  FS.locate fs1 "/tmp/tmp_/" = inl FS.EISDIR /\
  FS.locate fs1 "/tmp/tmp_/.." = inl FS.EISDIR /\
  FS.locate fs1 "/etc/x.wav" = inl FS.ENOENT /\
  FS.locate fs1 "/x.wav" = inr ["x.wav"] /\
  FS.is_dir (FS.rmtree fs1 d) d = false.
Proof. repeat split; reflexivity. Qed.

Example request_native :
  Observe.run_is
    (App.process_audio_file Samples.env_ok Samples.speech (Samples.app_world true))
    (Eff.Ret (Py.PyStr "hello"))
    [App.StSpinner "Transcribing audio...";
     App.CallTranscribe "/tmp/tmp_/speech.wav";
     App.StSpinner "Loading speech recognition model... This may take a moment.";
     App.AutoModelInit;
     App.ModelGenerate "/tmp/tmp_/speech.wav"].
Proof. split; reflexivity. Qed.

Example request_converted :
  Observe.run_is
    (App.process_audio_file Samples.env_ok Samples.clip (Samples.app_world true))
    (Eff.Ret (Py.PyStr "hello"))
    [App.StInfo "Converting .mp4 to WAV format...";
     App.CallConvertToWav "/tmp/tmp_/clip.mp4" "/tmp/tmp_/converted.wav";
     App.FfmpegRun "/tmp/tmp_/clip.mp4" "/tmp/tmp_/converted.wav";
     App.StSuccess "Conversion successful!";
     App.StSpinner "Transcribing audio...";
     App.CallTranscribe "/tmp/tmp_/converted.wav";
     App.StSpinner "Loading speech recognition model... This may take a moment.";
     App.AutoModelInit;
     App.ModelGenerate "/tmp/tmp_/converted.wav"].
Proof. split; reflexivity. Qed.

Example request_without_tool :
  Observe.run_is
    (App.process_audio_file Samples.env_ok Samples.clip (Samples.app_world false))
    (Eff.Ret Py.PyNone)
    [App.StInfo "Converting .mp4 to WAV format...";
     App.CallConvertToWav "/tmp/tmp_/clip.mp4" "/tmp/tmp_/converted.wav";
     App.StError App.ffmpeg_missing_message].
Proof. split; reflexivity. Qed.

Example request_failed_conversion :
  Observe.run_is
    (App.process_audio_file Samples.env_failing Samples.clip (Samples.app_world true))
    (Eff.Ret Py.PyNone)
    [App.StInfo "Converting .mp4 to WAV format...";
     App.CallConvertToWav "/tmp/tmp_/clip.mp4" "/tmp/tmp_/converted.wav";
     App.FfmpegRun "/tmp/tmp_/clip.mp4" "/tmp/tmp_/converted.wav";
     App.StError "FFmpeg conversion error: bad"].
Proof. split; reflexivity. Qed.

Example request_failed_transcription :
  Observe.run_is
    (App.process_audio_file Samples.env_failing Samples.speech (Samples.app_world true))
    (Eff.Ret Py.PyNone)
    [App.StSpinner "Transcribing audio...";
     App.CallTranscribe "/tmp/tmp_/speech.wav";
     App.StSpinner "Loading speech recognition model... This may take a moment.";
     App.AutoModelInit;
     App.ModelGenerate "/tmp/tmp_/speech.wav";
     App.StError "Error during transcription: decoding failed"].
Proof. split; reflexivity. Qed.

Example request_undecodable_diagnostics :
  fst (App.process_audio_file
         (Samples.app_env (App.FfExit [xff]) App.Loaded Samples.hello)
         Samples.clip (Samples.app_world true))
  = Eff.Raise (App.UnicodeDecodeError [xff]).
Proof. reflexivity. Qed.

Example setup_already_installed :
  fst (SetupFfmpeg.main Samples.host_ok (Samples.setup_world true [] "Linux"))
  = Eff.Ret 0%Z.
Proof. reflexivity. Qed.

Example setup_installs_on_linux :
  let final := SetupFfmpeg.main Samples.host_ok (Samples.setup_world false [] "Linux") in
  fst final = Eff.Ret 0%Z /\
  SetupFfmpeg.started (snd final) = [SetupFfmpeg.AptGetUpdate; SetupFfmpeg.AptGetInstall].
Proof. split; reflexivity. Qed.

Example setup_on_other_system :
  let final := SetupFfmpeg.main Samples.host_ok (Samples.setup_world false [] "Darwin") in
  fst final = Eff.Ret 1%Z /\ SetupFfmpeg.started (snd final) = [].
Proof. split; reflexivity. Qed.

Example setup_on_streamlit_cloud :
  let final := SetupFfmpeg.main Samples.host_ok
                 (Samples.setup_world false [("STREAMLIT_SERVER_HEADLESS", "true")] "Linux") in
  fst final = Eff.Ret 1%Z /\ SetupFfmpeg.started (snd final) = [].
Proof. split; reflexivity. Qed.

(* ================================================================== *)
(** * Facts about strings and the file system *)
(* ================================================================== *)

Unset Implicit Arguments.

Module FSFacts.

Import Py FS.

Lemma contains_char_app c a b :
  contains_char c (a ++ b) = contains_char c a || contains_char c b.
Proof.
  induction a as [|d a IH]; simpl; [reflexivity|].
  rewrite IH. now rewrite orb_assoc.
Qed.

Lemma split_no_sep sep a :
  contains_char sep a = false -> split sep a = [a].
Proof.
  induction a as [|d a IH]; simpl; intros H; [reflexivity|].
  apply orb_false_elim in H. destruct H as [Hd Ha].
  rewrite Hd, (IH Ha). reflexivity.
Qed.





Lemma underscores_length n : String.length (underscores n) = n.
Proof. induction n; simpl; congruence. Qed.

Lemma path_eqb_refl p : path_eqb p p = true.
Proof. unfold path_eqb. destruct (list_eq_dec string_dec p p); congruence. Qed.

Lemma path_eqb_eq p q : path_eqb p q = true <-> p = q.
Proof.
  unfold path_eqb. destruct (list_eq_dec string_dec p q); split; congruence.
Qed.

Lemma path_eqb_neq p q : p <> q -> path_eqb p q = false.
Proof.
  intros H. unfold path_eqb. destruct (list_eq_dec string_dec p q); congruence.
Qed.

Lemma is_prefix_refl d : is_prefix d d = true.
Proof. induction d as [|c d IH]; simpl; [reflexivity|]. now rewrite String.eqb_refl. Qed.

(** Every component of every listed path is at most [longest_all] long. *)
Lemma longest_all_bound ps p c :
  In p ps -> In c p -> (String.length c <= longest_all ps)%nat.
Proof.
  intros Hp Hc.
  assert (Hl : (String.length c <= longest p)%nat).
  { clear Hp. induction p as [|c' p IH]; simpl in *; [contradiction|].
    destruct Hc as [->|Hc]; [lia | specialize (IH Hc); lia]. }
  induction ps as [|q ps IH]; simpl in *; [contradiction|].
  destruct Hp as [->|Hp]; [lia | specialize (IH Hp); lia].
Qed.

Lemma fresh_name_length fs :
  (longest_all (dirs fs) < String.length (fresh_name fs))%nat /\
  (longest_all (map fst (files fs)) < String.length (fresh_name fs))%nat.
Proof.
  unfold fresh_name. simpl. rewrite underscores_length. lia.
Qed.

(** The drawn name is a component of no directory of the file system. *)
Lemma fresh_name_unused fs p :
  In p (dirs fs) -> ~ In (fresh_name fs) p.
Proof.
  intros Hp Hc. pose proof (longest_all_bound _ _ _ Hp Hc).
  pose proof (fresh_name_length fs). lia.
Qed.

(** After [rmtree d], nothing at or below [d] is left. *)
Lemma rmtree_removes fs d p :
  is_prefix d p = true ->
  existsb (path_eqb p) (dirs (rmtree fs d)) = false /\
  lookup p (files (rmtree fs d)) = None.
Proof.
  intros Hp. split.
  - simpl. induction (dirs fs) as [|q l IH]; simpl; [reflexivity|].
    destruct (is_prefix d q) eqn:E; simpl; [exact IH|].
    rewrite IH, orb_false_r. apply path_eqb_neq. congruence.
  - simpl. induction (files fs) as [|[q data] l IH]; simpl; [reflexivity|].
    destruct (is_prefix d q) eqn:E; simpl; [exact IH|].
    rewrite IH. rewrite path_eqb_neq; [reflexivity | congruence].
Qed.

Lemma rmtree_temporary_gone fs name :
  is_dir (rmtree fs (tmp_root ++ [name])%list) (tmp_root ++ [name])%list = false.
Proof.
  unfold is_dir.
  destruct (rmtree_removes fs (tmp_root ++ [name])%list (tmp_root ++ [name])%list
              (is_prefix_refl _)) as [-> _].
  reflexivity.
Qed.

End FSFacts.

Module TempFacts.

Import Py FS FSFacts.








Lemma existsb_path_false (q : Path) (l : list Path) :
  (forall p, In p l -> p <> q) -> existsb (path_eqb q) l = false.
Proof.
  induction l as [|p l IH]; simpl; intros H; [reflexivity|].
  rewrite IH by (intros; apply H; now right).
  rewrite path_eqb_neq; [reflexivity|].
  intros E. apply (H p); [now left | congruence].
Qed.


End TempFacts.

(* ================================================================== *)
(** * Facts about [app.py] *)
(* ================================================================== *)

Module AppFacts.

Import Py FS Eff App Observe FSFacts TempFacts.

(** ** The log *)

Lemma calls_convert_app a b :
  calls_convert (a ++ b) = (calls_convert a ++ calls_convert b)%list.
Proof. induction a as [|[] a IH]; simpl; congruence. Qed.

Lemma calls_transcribe_app a b :
  calls_transcribe (a ++ b) = (calls_transcribe a ++ calls_transcribe b)%list.
Proof. induction a as [|[] a IH]; simpl; congruence. Qed.

Lemma tool_runs_app a b :
  tool_runs (a ++ b) = (tool_runs a ++ tool_runs b)%list.
Proof. induction a as [|[] a IH]; simpl; congruence. Qed.

Lemma errors_shown_app a b :
  errors_shown (a ++ b) = (errors_shown a ++ errors_shown b)%list.
Proof. induction a as [|[] a IH]; simpl; congruence. Qed.

Ltac tidy :=
  repeat (rewrite ?calls_convert_app, ?calls_transcribe_app, ?tool_runs_app,
           ?errors_shown_app; cbn [calls_convert calls_transcribe tool_runs
                                   errors_shown app]);
  rewrite ?app_nil_r.

(** Unfolding of the program's control structure, down to the answers of
    the environment. *)
Ltac step :=
  cbv beta iota zeta delta
    [convert_to_wav is_ffmpeg_available ffmpeg_run transcribe get_model
     load_funasr_model AutoModel generate perform_transcription
     transcribe_saved save_upload open_wb_write
     st_error st_info st_success st_spinner st_stop emit
     bind ret raise try_except is_Exception
     add_event set_fs set_resource_cache set_self_model
     fs ffmpeg_on_path resource_cache self_model log negb fst snd].

Ltac answers :=
  repeat match goal with
         | |- context [match ?x with _ => _ end] =>
             lazymatch x with
             | ffmpeg_tool _ _ _ _ => destruct x eqn:?
             | automodel_init _ => destruct x eqn:?
             | model_generate _ _ _ => destruct x eqn:?
             | write_file _ _ _ => destruct x eqn:?
             | decode _ => destruct x eqn:?
             | dict_get _ _ => destruct x eqn:?
             | _ => is_var x; destruct x
             end; step
         end.

Section Facts.

Variable env : Env.




Lemma perform_transcription_eq p w :
  perform_transcription env p w
  = transcribe env p (add_event w (StSpinner "Transcribing audio...")).
Proof.
  unfold perform_transcription, st_spinner, emit, bind, ret.
  destruct (transcribe env p (add_event w (StSpinner "Transcribing audio...")))
    as [[v|e] w']; reflexivity.
Qed.


(** The dispatch on any other extension. *)
Lemma transcribe_saved_converted ext td ip w :
  mem ext FUNASR_SUPPORTED_FORMATS = false ->
  transcribe_saved env ext td ip w
  = match convert_to_wav env ip (os_path_join td "converted.wav")
            (add_event w (StInfo ("Converting " ++ ext ++ " to WAV format..."))) with
    | (Ret true, w') =>
        transcribe env (os_path_join td "converted.wav")
          (add_event (add_event w' (StSuccess "Conversion successful!"))
                     (StSpinner "Transcribing audio..."))
    | (Ret false, w') => (Ret PyNone, w')
    | (Raise e, w') => (Raise e, w')
    end.
Proof.
  intros H. unfold transcribe_saved. rewrite H.
  unfold bind at 1. unfold st_info, emit. unfold bind at 1.
  destruct (convert_to_wav env ip (os_path_join td "converted.wav")
              (add_event w (StInfo ("Converting " ++ ext ++ " to WAV format..."))))
    as [[[|]|e] w']; try reflexivity.
  cbn [negb]. unfold bind at 1, st_success, emit.
  apply perform_transcription_eq.
Qed.

(** The two ways the save can end. *)
Lemma save_upload_outcome td up w :
  (exists fs', write_file (fs w) (os_path_join td (name up)) (getbuffer up) = inr fs' /\
               save_upload td up w = (Ret (os_path_join td (name up)), set_fs w fs')) \/
  (exists e, write_file (fs w) (os_path_join td (name up)) (getbuffer up) = inl e /\
             save_upload td up w = (Raise (OSError e (os_path_join td (name up))), w)).
Proof.
  unfold save_upload, open_wb_write, bind, ret.
  destruct (write_file (fs w) (os_path_join td (name up)) (getbuffer up)) as [e|fs'].
  - right. now exists e.
  - left. now exists fs'.
Qed.

(** The request as a whole: the block, then the removal. *)
Lemma process_audio_file_block up w :
  process_audio_file env up w
  = leave_block w
      match save_upload (temp_dir w) up (world_in_block w) with
      | (Ret p, w1) => transcribe_saved env (file_extension up) (temp_dir w) p w1
      | (Raise e, w1) => (Raise e, w1)
      end.
Proof.
  unfold process_audio_file, with_TemporaryDirectory, leave_block, temp_dir,
    world_in_block, scoped_dir, file_extension.
  destruct (mkdtemp (fs w)) as [d fs1] eqn:E. cbn [fst snd].
  unfold bind at 1.
  destruct (save_upload (path_str d) up (set_fs w fs1)) as [[p|e] w1].
  - destruct (transcribe_saved env (lower (path_suffix (name up))) (path_str d) p w1);
      reflexivity.
  - reflexivity.
Qed.

(** What [transcribe] hands back once the model is at hand. *)
Lemma transcribe_ready_value p w :
  model_ready env w ->
  fst (transcribe env p w) =
  match model_generate env (fs w) p with
  | GenReturns (Some (PyDict items :: _)) =>
      match dict_get "text" items with
      | Some text => Ret text
      | None => Ret (PyStr (str (repr_str env) (PyDict items)))
      end
  | GenReturns (Some (PyStr s :: _)) => Ret (PyStr s)
  | GenReturns (Some (first :: _)) => Ret (PyStr (str (repr_str env) first))
  | GenReturns _ => Ret PyNone
  | GenRaises _ _ => Ret PyNone
  end.
Proof.
  intros Hready. destruct w as [f t c m l].
  assert (H : m = true \/ c = true \/ automodel_init env = Loaded) by exact Hready.
  clear Hready. step.
  destruct m; [|destruct c; [|destruct H as [H|[H|H]]; try discriminate; rewrite H]];
    step; destruct (model_generate env f p) as [[[|first rest]|]|]; step;
    try reflexivity;
    destruct first; step; try reflexivity;
    destruct (dict_get "text" items); reflexivity.
Qed.

End Facts.

(** ** The conversion step without the tool *)

(** C4.  When the tool is not on the command search path,
    [convert_to_wav] returns [False] for every pair of paths, never starts
    the tool, changes nothing on disk, and shows one error message, which
    carries the installation guidance for Ubuntu/Debian, macOS and
    Windows. *)
Theorem convert_to_wav_tool_unavailable env input_path output_path w :
  ffmpeg_on_path w = false ->
  convert_to_wav env input_path output_path w
  = (Ret false,
     add_event (add_event w (CallConvertToWav input_path output_path))
               (StError ffmpeg_missing_message)) /\
  tool_runs (log (snd (convert_to_wav env input_path output_path w)))
  = tool_runs (log w) /\
  fs (snd (convert_to_wav env input_path output_path w)) = fs w /\
  contains "**Ubuntu/Debian:** `sudo apt update && sudo apt install ffmpeg`"
           ffmpeg_missing_message = true /\
  contains "**macOS:** `brew install ffmpeg`" ffmpeg_missing_message = true /\
  contains "**Windows:** Download from [ffmpeg.org](https://ffmpeg.org/download.html)"
           ffmpeg_missing_message = true.
Proof.
  intros H. destruct w as [f t c m l]. simpl in H. subst t.
  repeat split; try (vm_compute; reflexivity); step; tidy; reflexivity.
Qed.

Lemma convert_to_wav_tool_unavailable_witness :
  fst (convert_to_wav Samples.env_ok "/tmp/t/clip.mp4" "/tmp/t/converted.wav"
                      (Samples.app_world false)) = Ret false.
Proof.
  pose proof (convert_to_wav_tool_unavailable Samples.env_ok "/tmp/t/clip.mp4"
                "/tmp/t/converted.wav" (Samples.app_world false) eq_refl) as H.
  destruct H as [H _]. rewrite H. reflexivity.
Defined.

(** ** The extraction policy *)

(** C1.  Once the model is at hand and has produced [result] for the
    file, [transcribe] follows the ordered policy: the value of the
    [text] field of a first result that is a dict with that field; else a
    first result that is a [str], unchanged; else [str] of the first
    result; and [None] when the result is empty or absent.  So
    [{"text": "hello"}] gives ["hello"], ["hello"] gives ["hello"] and
    [42] gives ["42"]. *)
Theorem transcribe_extraction_policy env audio_path w result :
  model_ready env w ->
  model_generate env (fs w) audio_path = GenReturns result ->
  let returned := fst (transcribe env audio_path w) in
  (forall items text rest,
      result = Some (PyDict items :: rest) ->
      dict_get "text" items = Some text ->
      returned = Ret text) /\
  (forall s rest,
      result = Some (PyStr s :: rest) ->
      returned = Ret (PyStr s)) /\
  (forall first rest,
      result = Some (first :: rest) ->
      has_text_field first = false ->
      isinstance_str first = false ->
      returned = Ret (PyStr (str (repr_str env) first))) /\
  (result = None \/ result = Some [] -> returned = Ret PyNone) /\
  (result = Some [PyDict [("text", PyStr "hello")]] -> returned = Ret (PyStr "hello")) /\
  (result = Some [PyStr "hello"] -> returned = Ret (PyStr "hello")) /\
  (result = Some [PyInt 42] -> returned = Ret (PyStr "42")).
Proof.
  intros Hready Hgen returned. subst returned.
  rewrite (transcribe_ready_value env audio_path w Hready), Hgen.
  repeat split.
  - intros items text rest -> Htext. now rewrite Htext.
  - now intros s rest ->.
  - intros first rest -> Hdict Hstr.
    destruct first; try reflexivity; try discriminate.
    unfold has_text_field, dict_has in Hdict.
    destruct (dict_get "text" items); [discriminate | reflexivity].
  - now intros [-> | ->].
  - now intros ->.
  - now intros ->.
  - now intros ->.
Qed.

Lemma transcribe_extraction_policy_witness :
  fst (transcribe Samples.env_ok "/tmp/t/speech.wav" (Samples.app_world true))
  = Ret (PyStr "hello").
Proof.
  refine (proj1 (transcribe_extraction_policy Samples.env_ok "/tmp/t/speech.wav"
                   (Samples.app_world true) _ _ eq_refl) _ _ _ eq_refl eq_refl).
  right. right. reflexivity.
Defined.

(** ** Failure values *)




(** ** Exceptions of the two steps *)

(** When the model cannot be constructed, [transcribe] does not return:
    the run is stopped. *)
Lemma transcribe_stops_without_model :
  fst (transcribe Samples.env_no_model "/tmp/t/speech.wav" (Samples.app_world true))
  = Raise StopException /\
  ~ never_propagates Samples.env_no_model.
Proof.
  split; [reflexivity|].
  intros [_ H].
  destruct (H "/tmp/t/speech.wav" (Samples.app_world true)) as [v Hv].
  vm_compute in Hv. discriminate.
Qed.

(** C7, amended.  With the tool present, [convert_to_wav] returns [True]
    after a run that succeeds, and [False] with the failure shown to the
    user after a run that exits with diagnostics that decode, or that
    raises otherwise.  With the model at hand, [transcribe] returns
    [None] with the failure shown when running the model raises.  When
    the model has to be constructed and the construction raises, the
    failure is shown by [load_funasr_model], the script run is stopped,
    the model is not run and [transcribe] returns nothing. *)
Theorem exceptions_become_failure_results env w :
  (forall input_path output_path,
      ffmpeg_on_path w = true ->
      let r := convert_to_wav env input_path output_path w in
      match ffmpeg_tool env (fs w) input_path output_path with
      | FfDone _ => fst r = Ret true
      | FfExit stderr =>
          forall text, decode stderr = Some text ->
            fst r = Ret false /\
            errors_shown (log (snd r))
            = (errors_shown (log w) ++ [("FFmpeg conversion error: " ++ text)%string])%list
      | FfRaises cls msg =>
          fst r = Ret false /\
          errors_shown (log (snd r))
          = (errors_shown (log w)
               ++ [("Unexpected error during conversion: "
                      ++ exc_str env (ExternalError cls msg))%string])%list
      end) /\
  (forall audio_path cls msg,
      model_ready env w ->
      model_generate env (fs w) audio_path = GenRaises cls msg ->
      let r := transcribe env audio_path w in
      fst r = Ret PyNone /\
      errors_shown (log (snd r))
      = (errors_shown (log w)
           ++ [("Error during transcription: "
                  ++ exc_str env (ExternalError cls msg))%string])%list) /\
  (forall audio_path cls msg,
      self_model w = false ->
      resource_cache w = false ->
      automodel_init env = LoadRaises cls msg ->
      let r := transcribe env audio_path w in
      fst r = Raise StopException /\
      errors_shown (log (snd r))
      = (errors_shown (log w)
           ++ [("Error loading model: "
                  ++ exc_str env (ExternalError cls msg))%string])%list /\
      last (log (snd r)) StStop = StStop /\
      In StStop (log (snd r)) /\
      ~ In (ModelGenerate audio_path) (skipn (List.length (log w)) (log (snd r)))).
Proof.
  destruct w as [f t c m l]. split; [|split].
  - intros i o Ht r. simpl in Ht. subst t r. simpl fs.
    destruct (ffmpeg_tool env f i o) eqn:E.
    + step. rewrite E. destruct (write_file f o out); reflexivity.
    + intros text Hd. step. rewrite E. step. rewrite Hd. step. tidy.
      split; reflexivity.
    + step. rewrite E. step. tidy. split; reflexivity.
  - intros p cls msg Hready Hg r. subst r. simpl fs in Hg.
    assert (H : m = true \/ c = true \/ automodel_init env = Loaded) by exact Hready.
    destruct m; [|destruct c; [|destruct H as [H|[H|H]]; try discriminate]];
      step; rewrite ?H; step; rewrite Hg; step; tidy; split; reflexivity.
  - intros p cls msg Hm Hc Hl r. simpl in Hm, Hc. subst m c r.
    step. rewrite Hl. step. tidy. repeat split.
    + rewrite !last_last. reflexivity.
    + rewrite !in_app_iff. simpl. tauto.
    + rewrite <- !app_assoc. rewrite skipn_app, skipn_all, Nat.sub_diag. simpl.
      intros [H|[H|[H|[H|[H|[]]]]]]; discriminate.
Qed.

Lemma exceptions_become_failure_results_witness :
  fst (convert_to_wav Samples.env_failing "/tmp/t/clip.mp4" "/tmp/t/converted.wav"
                      (Samples.app_world true)) = Ret false /\
  fst (transcribe Samples.env_failing "/tmp/t/speech.wav" (Samples.app_world true))
  = Ret PyNone /\
  fst (transcribe Samples.env_no_model "/tmp/t/speech.wav" (Samples.app_world true))
  = Raise StopException.
Proof.
  split; [|split].
  - exact (proj1 (proj1 (exceptions_become_failure_results Samples.env_failing
                           (Samples.app_world true))
                        "/tmp/t/clip.mp4" "/tmp/t/converted.wav" eq_refl
                        "bad" eq_refl)).
  - refine (proj1 (proj1 (proj2 (exceptions_become_failure_results Samples.env_failing
                                   (Samples.app_world true)))
                         "/tmp/t/speech.wav" "RuntimeError" "decoding failed"
                         _ eq_refl)).
    right. right. reflexivity.
  - exact (proj1 (proj2 (proj2 (exceptions_become_failure_results Samples.env_no_model
                                  (Samples.app_world true)))
                        "/tmp/t/speech.wav" "OSError" "model files not found"
                        eq_refl eq_refl eq_refl)).
Defined.

(** ** The scoped directory *)

Lemma scoped_dir_eq w : scoped_dir w = ["tmp"; fresh_name (fs w)].
Proof. reflexivity. Qed.

Lemma under_scoped_dir x p :
  is_prefix ["tmp"; x] p = true -> p <> [] /\ p <> tmp_root.
Proof.
  destruct p as [|c [|c' p]]; simpl; intros H; try discriminate.
  - now rewrite andb_false_r in H.
  - split; discriminate.
Qed.

(** C5.  The scoped directory is new when the request starts, exists
    while the block runs, and after [process_audio_file] is over -
    whatever the outcome: a transcript, the early return after a failed
    conversion, a failed transcription, or an exception - neither the
    directory nor anything below it exists. *)
Theorem temporary_directory_removed env uploaded_file w :
  let d := scoped_dir w in
  let final := snd (process_audio_file env uploaded_file w) in
  is_dir (fs w) d = false /\
  is_dir (fs (world_in_block w)) d = true /\
  is_dir (fs final) d = false /\
  (forall p, is_prefix d p = true ->
             is_dir (fs final) p = false /\ is_file (fs final) p = false).
Proof.
  intros d final. subst d final. rewrite process_audio_file_block.
  rewrite scoped_dir_eq. unfold leave_block. cbn [snd fs set_fs].
  rewrite scoped_dir_eq.
  set (x := fresh_name (fs w)).
  set (inner := snd _).
  repeat split.
  - unfold is_dir.
    rewrite (path_eqb_neq ["tmp"; x] []) by discriminate.
    rewrite (path_eqb_neq ["tmp"; x] tmp_root) by discriminate.
    cbn [orb]. apply existsb_path_false.
    intros p Hp ->. apply (fresh_name_unused (fs w) _ Hp). simpl. tauto.
  - unfold world_in_block, is_dir. cbn [fs set_fs mkdtemp snd dirs existsb].
    change (tmp_root ++ [fresh_name (fs w)])%list with ["tmp"; x].
    rewrite (path_eqb_refl ["tmp"; x]). now rewrite orb_true_r.
  - apply (rmtree_temporary_gone (fs inner) x).
  - unfold is_dir. destruct (under_scoped_dir x p H) as [H1 H2].
    rewrite (path_eqb_neq p [] H1), (path_eqb_neq p tmp_root H2).
    cbn [orb]. apply (rmtree_removes (fs inner) ["tmp"; x] p H).
  - unfold is_file.
    destruct (rmtree_removes (fs inner) ["tmp"; x] p H) as [_ ->]. reflexivity.
Qed.

(** ** The saved upload *)




(** ** The format dispatch *)

Lemma saved_block up w :
  saved up w ->
  save_upload (temp_dir w) up (world_in_block w) = (Ret (input_path up w), world_saved up w).
Proof.
  unfold saved, world_saved. intros H.
  destruct (save_upload (temp_dir w) up (world_in_block w)) as [o w1].
  simpl in *. now subst o.
Qed.


(** Saving writes a file and nothing else. *)
Lemma world_saved_keeps up w :
  log (world_saved up w) = log w /\
  self_model (world_saved up w) = self_model w /\
  resource_cache (world_saved up w) = resource_cache w.
Proof.
  unfold world_saved.
  destruct (save_upload_outcome (temp_dir w) up (world_in_block w))
    as [(fs' & _ & E)|(e & _ & E)]; rewrite E; repeat split; reflexivity.
Qed.







(** ** The empty transcript *)




End AppFacts.

(* ================================================================== *)
(** * Facts about [setup_ffmpeg.py] *)
(* ================================================================== *)

Module SetupFacts.

Import Py Eff SetupFfmpeg.

Ltac run :=
  cbv beta iota zeta delta
    [main setup_ffmpeg attempt_installation install_ffmpeg_linux
     check_streamlit_cloud is_ffmpeg_installed subprocess_run print get
     bind ret raise try_except
     ffmpeg_on_path environ platform_system platform_platform printed started
     fst snd andb orb negb].

Ltac outcomes :=
  repeat match goal with
         | |- context [match ?x with _ => _ end] =>
             lazymatch x with
             | ffmpeg_version_run _ => destruct x eqn:?
             | apt_get_update_run _ => destruct x eqn:?
             | apt_get_install_run _ => destruct x eqn:?
             | apt_get_install_places_ffmpeg _ => destruct x eqn:?
             | environ_get _ _ => destruct x eqn:?
             | (_ =? _)%string => destruct x eqn:?
             | (_ =? _)%Z => destruct x eqn:?
             | andb _ _ => destruct x eqn:?
             | _ => is_var x; destruct x
             end; run
         end.

(** The script always ends with status 0 or 1, never in an exception. *)
Lemma main_exit_status host w :
  fst (main host w) = Ret 0%Z \/ fst (main host w) = Ret 1%Z.
Proof.
  destruct w as [t env sys plat out st]. run. outcomes; tauto.
Qed.

(** Status 0 is given only when the tool is on the search path. *)
Lemma exit_zero_tool_available host w :
  fst (main host w) = Ret 0%Z -> ffmpeg_on_path (snd (main host w)) = true.
Proof.
  destruct w as [t env sys plat out st]. run. outcomes;
    cbn [negb andb orb]; try reflexivity; try discriminate.
Qed.

(** On a managed-hosting platform with the tool absent, [setup_ffmpeg]
    returns [False], starts no subprocess, leaves the tool absent, and the
    script ends with status 1. *)
Lemma managed_hosting_defers host w :
  ffmpeg_on_path w = false ->
  fst (check_streamlit_cloud w) = Ret true ->
  fst (setup_ffmpeg host w) = Ret false /\
  started (snd (setup_ffmpeg host w)) = started w /\
  ffmpeg_on_path (snd (setup_ffmpeg host w)) = false /\
  fst (main host w) = Ret 1%Z.
Proof.
  destruct w as [t env sys plat out st]. cbn [ffmpeg_on_path]. intros -> Hc.
  revert Hc. run. intros Hc. injection Hc as Hc. rewrite Hc.
  repeat split; reflexivity.
Qed.

(** When the install command was not started or reported success, the
    exit status tells whether the tool is on the search path. *)
Lemma exit_status_after_verified_setup host w :
  ~ In AptGetInstall (started w) ->
  (In AptGetInstall (started (snd (main host w))) ->
   exists out, apt_get_install_run host = Completed 0 out) ->
  (fst (main host w) = Ret 0%Z <-> ffmpeg_on_path (snd (main host w)) = true).
Proof.
  intros Hfresh Hok. split; [apply exit_zero_tool_available|].
  revert Hok. destruct w as [t env sys plat out st]. cbn [started] in Hfresh.
  run. outcomes; cbn [negb andb orb started]; intros Hok Hav;
    try reflexivity; try discriminate;
    try (destruct Hok as [o Ho]; [rewrite !in_app_iff; simpl; tauto|];
         first [discriminate Ho | injection Ho as ? ?; subst; discriminate]).
Qed.

(** C8, at the failing input.  On a Linux host outside managed hosting,
    with the tool absent, where the install command puts the tool on the
    search path and then ends with a non-zero status, the script starts
    both package-manager commands, does not look at the search path
    again, and ends with status 1 although the tool is available. *)
Theorem failed_install_is_not_verified :
  let w := Samples.setup_world false [] "Linux" in
  let final := main Samples.host_partial w in
  fst final = Ret 1%Z /\
  ffmpeg_on_path (snd final) = true /\
  started (snd final) = [AptGetUpdate; AptGetInstall] /\
  fst (setup_ffmpeg Samples.host_partial w) = Ret false.
Proof. repeat split; reflexivity. Qed.

End SetupFacts.

(* ================================================================== *)
(** * Further facts: file names and the format dispatch *)
(* ================================================================== *)

Module NameFacts.

Import Py FS Eff App Observe Widget FSFacts TempFacts.

(** ** Lower-casing and path syntax *)

Lemma lower_char_slash c : Ascii.eqb (lower_char c) "/" = Ascii.eqb c "/".
Proof. destruct c as [[] [] [] [] [] [] [] []]; reflexivity. Qed.

Lemma lower_char_dot c : Ascii.eqb (lower_char c) "." = Ascii.eqb c ".".
Proof. destruct c as [[] [] [] [] [] [] [] []]; reflexivity. Qed.

Lemma lower_char_idem c : lower_char (lower_char c) = lower_char c.
Proof. destruct c as [[] [] [] [] [] [] [] []]; reflexivity. Qed.

Lemma lower_idem s : lower (lower s) = lower s.
Proof. induction s as [|c s IH]; simpl; [reflexivity|]. now rewrite lower_char_idem, IH. Qed.

Lemma lower_length s : String.length (lower s) = String.length s.
Proof. induction s as [|c s IH]; simpl; congruence. Qed.

Lemma lower_is_empty s : (lower s =? "") = (s =? "").
Proof. destruct s; reflexivity. Qed.

Lemma lower_is_dot s : (lower s =? ".") = (s =? ".").
Proof.
  destruct s as [|c s]; [reflexivity|].
  cbn [lower String.eqb]. rewrite lower_char_dot.
  destruct (Ascii.eqb c "."); [|reflexivity]. destruct s; reflexivity.
Qed.

Lemma is_part_lower s : is_part (lower s) = is_part s.
Proof. unfold is_part. now rewrite lower_is_empty, lower_is_dot. Qed.

Lemma split_lower s : split "/" (lower s) = map lower (split "/" s).
Proof.
  induction s as [|c s IH]; [reflexivity|].
  cbn [lower split]. rewrite lower_char_slash, IH.
  destruct (Ascii.eqb c "/"); [reflexivity|].
  destruct (split "/" s); reflexivity.
Qed.

Lemma filter_part_lower l :
  filter is_part (map lower l) = map lower (filter is_part l).
Proof.
  induction l as [|c l IH]; [reflexivity|].
  cbn [map filter]. rewrite is_part_lower, IH. destruct (is_part c); reflexivity.
Qed.

Lemma last_lower l : last (map lower l) "" = lower (last l "").
Proof.
  induction l as [|c l IH]; [reflexivity|].
  destruct l as [|c' l]; [reflexivity|]. exact IH.
Qed.

Lemma path_name_lower s : path_name (lower s) = lower (path_name s).
Proof. unfold path_name. now rewrite split_lower, filter_part_lower, last_lower. Qed.

Lemma after_last_dot_lower s :
  after_last_dot (lower s) = option_map lower (after_last_dot s).
Proof.
  induction s as [|c s IH]; [reflexivity|].
  cbn [lower after_last_dot]. rewrite IH, lower_char_dot.
  destruct (after_last_dot s); [reflexivity|].
  destruct (Ascii.eqb c "."); reflexivity.
Qed.

(** The suffix of the lower-cased name is the lower-cased suffix. *)
Lemma path_suffix_lower s : path_suffix (lower s) = lower (path_suffix s).
Proof.
  unfold path_suffix. rewrite path_name_lower, after_last_dot_lower.
  destruct (after_last_dot (path_name s)) as [ext|]; [|reflexivity].
  cbn [option_map]. rewrite lower_is_empty, !lower_length.
  destruct ((ext =? "") || (String.length (path_name s) =? S (String.length ext))%nat);
    reflexivity.
Qed.

(** X1.  The format dispatch does not depend on letter case: two uploads
    whose declared names differ only in the case of ASCII letters get the
    same extension, hence the same decision between transcribing the file
    as it is and converting it first. *)
Theorem dispatch_ignores_case (up1 up2 : UploadedFile) :
  lower (name up1) = lower (name up2) ->
  file_extension up1 = file_extension up2 /\
  mem (file_extension up1) FUNASR_SUPPORTED_FORMATS
  = mem (file_extension up2) FUNASR_SUPPORTED_FORMATS /\
  file_extension up1 = path_suffix (lower (name up1)).
Proof.
  intros H. unfold file_extension.
  rewrite <- !path_suffix_lower, H. repeat split; reflexivity.
Qed.

Lemma dispatch_ignores_case_witness :
  file_extension (Samples.upload "Clip.MP4") = ".mp4" /\
  file_extension (Samples.upload "SPEECH.Wav") = file_extension Samples.speech.
Proof.
  split.
  - exact (eq_trans (proj1 (dispatch_ignores_case (Samples.upload "Clip.MP4")
                              Samples.clip eq_refl)) eq_refl).
  - exact (proj1 (dispatch_ignores_case (Samples.upload "SPEECH.Wav")
                    Samples.speech eq_refl)).
Defined.

(** ** The suffix of a stem and a type *)

Lemma after_last_dot_none t : contains_char "." t = false -> after_last_dot t = None.
Proof.
  induction t as [|c t IH]; [reflexivity|].
  cbn [contains_char after_last_dot]. intros H.
  apply orb_false_elim in H. destruct H as [Hc Ht].
  now rewrite (IH Ht), Hc.
Qed.

Lemma after_last_dot_app a t :
  contains_char "." t = false -> after_last_dot (a ++ String "." t) = Some t.
Proof.
  intros Ht. induction a as [|c a IH].
  - cbn [append after_last_dot]. now rewrite (after_last_dot_none t Ht).
  - cbn [append after_last_dot]. now rewrite IH.
Qed.

Lemma append_length a b : String.length (a ++ b) = (String.length a + String.length b)%nat.
Proof. induction a as [|c a IH]; simpl; congruence. Qed.

Lemma path_name_plain s :
  s <> "" -> s <> "." -> contains_char "/" s = false -> path_name s = s.
Proof.
  intros He Hd Hs. unfold path_name. rewrite (split_no_sep "/" s Hs).
  cbn [filter]. unfold is_part.
  rewrite (proj2 (String.eqb_neq s "") He), (proj2 (String.eqb_neq s ".") Hd).
  reflexivity.
Qed.

(** A name made of a non-empty stem, a dot and a type has the dot and the
    type as its suffix. *)
Lemma path_suffix_stem stem t :
  stem <> "" -> contains_char "/" stem = false ->
  t <> "" -> contains_char "/" t = false -> contains_char "." t = false ->
  path_suffix (stem ++ "." ++ t) = "." ++ t.
Proof.
  intros Hs Hss Ht Hts Htd. unfold path_suffix.
  assert (Hlen : String.length (stem ++ "." ++ t)
                 = (String.length stem + S (String.length t))%nat)
    by (rewrite append_length; reflexivity).
  assert (Hpos : (0 < String.length stem)%nat)
    by (destruct stem; [congruence | simpl; lia]).
  rewrite path_name_plain.
  - change (stem ++ "." ++ t) with (stem ++ String "." t).
    rewrite (after_last_dot_app stem t Htd).
    rewrite (proj2 (String.eqb_neq t "") Ht).
    change (stem ++ String "." t) with (stem ++ "." ++ t). rewrite Hlen.
    replace (String.length stem + S (String.length t) =? S (String.length t))%nat
      with false by (symmetry; apply Nat.eqb_neq; lia).
    reflexivity.
  - intros E. rewrite E in Hlen. simpl in Hlen. lia.
  - intros E. rewrite E in Hlen. simpl in Hlen.
    destruct t; [congruence | simpl in Hlen; lia].
  - change (stem ++ "." ++ t) with (stem ++ ("." ++ t)).
    rewrite contains_char_app, Hss. cbn [append contains_char orb].
    rewrite Hts. reflexivity.
Qed.

(** X2.  The upload widget and the dispatch agree.  For every type the
    widget offers and every name made of a non-empty stem (without a
    separator), a dot and that type, the extension the request computes is
    the dot and the type, it is one of [ACCEPTED_FORMATS], and the file is
    transcribed without conversion exactly for the types wav, mp3, flac,
    m4a and ogg.  A name with nothing before the dot has no extension and
    is sent to the converter. *)
Theorem uploader_types_dispatch t stem data :
  In t uploader_types ->
  (stem <> "" -> contains_char "/" stem = false ->
   file_extension (mkUpload (stem ++ "." ++ t) data) = "." ++ t /\
   mem ("." ++ t) ACCEPTED_FORMATS = true /\
   (mem (file_extension (mkUpload (stem ++ "." ++ t) data)) FUNASR_SUPPORTED_FORMATS = true
    <-> In t ["wav"; "mp3"; "flac"; "m4a"; "ogg"])) /\
  file_extension (mkUpload ("." ++ t) data) = "" /\
  mem (file_extension (mkUpload ("." ++ t) data)) FUNASR_SUPPORTED_FORMATS = false.
Proof.
  intros Hin.
  assert (Hcases : file_extension (mkUpload ("." ++ t) data) = "" /\
                   lower ("." ++ t) = "." ++ t /\
                   t <> "" /\ contains_char "/" t = false /\ contains_char "." t = false /\
                   mem ("." ++ t) ACCEPTED_FORMATS = true /\
                   (mem ("." ++ t) FUNASR_SUPPORTED_FORMATS = true
                    <-> In t ["wav"; "mp3"; "flac"; "m4a"; "ogg"])).
  { unfold uploader_types in Hin. cbn in Hin.
    repeat (destruct Hin as [<-|Hin];
            [repeat split; try reflexivity; try discriminate;
             cbn; intuition (discriminate || congruence)|]).
    contradiction. }
  destruct Hcases as (Hbare & Hlow & Hne & Hsl & Hdot & Hacc & Hnat).
  split; [|split].
  - intros Hs Hss.
    assert (Hext : file_extension (mkUpload (stem ++ "." ++ t) data) = "." ++ t).
    { unfold file_extension. cbn [name].
      rewrite (path_suffix_stem stem t Hs Hss Hne Hsl Hdot). exact Hlow. }
    rewrite Hext. repeat split; try assumption; apply Hnat.
  - exact Hbare.
  - rewrite Hbare. reflexivity.
Qed.

Lemma uploader_types_dispatch_witness :
  file_extension (mkUpload ("my.holiday" ++ "." ++ "mkv") []) = ".mkv".
Proof.
  refine (proj1 (proj1 (uploader_types_dispatch "mkv" "my.holiday" [] _) _ eq_refl)).
  - cbn. tauto.
  - discriminate.
Defined.

End NameFacts.

(* ================================================================== *)
(** * Further facts: the request as a whole *)
(* ================================================================== *)

Module RequestFacts.

Import Py FS Eff App Observe Widget FSFacts TempFacts AppFacts.

Lemma model_inits_app a b : model_inits (a ++ b) = (model_inits a + model_inits b)%nat.
Proof. induction a as [|[] a IH]; simpl; congruence. Qed.

Lemma model_runs_app a b : model_runs (a ++ b) = (model_runs a ++ model_runs b)%list.
Proof. induction a as [|[] a IH]; simpl; congruence. Qed.

Ltac tidy_more :=
  repeat (rewrite ?model_inits_app, ?model_runs_app, ?errors_shown_app,
           ?calls_transcribe_app, ?calls_convert_app, ?tool_runs_app;
          cbn [model_inits model_runs errors_shown calls_transcribe calls_convert
               tool_runs app Nat.add]);
  rewrite ?app_nil_r, ?Nat.add_0_r.

(** ** The model is constructed at most once *)

Lemma transcribe_with_model_held env p w :
  self_model w = true \/ resource_cache w = true ->
  model_inits (log (snd (transcribe env p w))) = model_inits (log w).
Proof.
  destruct w as [f t c m l]. cbn [self_model resource_cache log].
  intros [-> | ->]; [|destruct m]; step; answers; tidy_more; reflexivity.
Qed.

Lemma transcribe_returns_with_model env p w v :
  fst (transcribe env p w) = Ret v -> self_model (snd (transcribe env p w)) = true.
Proof.
  destruct w as [f t c m l]. destruct m, c; step; answers;
    try reflexivity; discriminate.
Qed.

Lemma transcribe_inits_bound env p w :
  (model_inits (log (snd (transcribe env p w))) <= model_inits (log w) + 1)%nat.
Proof.
  destruct w as [f t c m l]. destruct m, c; step; answers; tidy_more; lia.
Qed.

(** X3.  The recognition model is constructed at most once.  A call of
    [transcribe] constructs it at most one time, and not at all when the
    instance holds it or the resource cache has it (a later script run
    with a new [SpeechToTextModel]); and after a call that returned - with
    a transcript or with [None] - the instance holds the model, so the
    next call constructs nothing. *)
Theorem model_constructed_at_most_once env p1 p2 w :
  let w1 := snd (transcribe env p1 w) in
  (model_inits (log w1) <= model_inits (log w) + 1)%nat /\
  (self_model w = true \/ resource_cache w = true ->
   model_inits (log w1) = model_inits (log w)) /\
  (forall v, fst (transcribe env p1 w) = Ret v ->
             self_model w1 = true /\
             model_inits (log (snd (transcribe env p2 w1))) = model_inits (log w1)).
Proof.
  intros w1. split; [apply transcribe_inits_bound|]. split.
  - apply transcribe_with_model_held.
  - intros v Hv.
    pose proof (transcribe_returns_with_model env p1 w v Hv) as Hm.
    split; [exact Hm|]. apply transcribe_with_model_held. now left.
Qed.

Lemma model_constructed_at_most_once_witness :
  let w1 := snd (transcribe Samples.env_ok "/tmp/t/a.wav" (Samples.app_world true)) in
  model_inits (log (snd (transcribe Samples.env_ok "/tmp/t/b.wav" w1))) = 1%nat.
Proof.
  exact (proj2 (proj2 (proj2 (model_constructed_at_most_once Samples.env_ok
                                "/tmp/t/a.wav" "/tmp/t/b.wav" (Samples.app_world true)))
                      (PyStr "hello") eq_refl)).
Defined.

(** ** The disk *)



Lemma fresh_name_unused_files fs e :
  In e (files fs) -> ~ In (fresh_name fs) (fst e).
Proof.
  intros He Hc.
  pose proof (longest_all_bound (map fst (files fs)) (fst e) (fresh_name fs)
                (in_map fst _ _ He) Hc).
  pose proof (fresh_name_length fs). lia.
Qed.

Lemma under_fresh_has_name x p : is_prefix ["tmp"; x] p = true -> In x p.
Proof.
  destruct p as [|c [|c' p]]; cbn [is_prefix]; intros H; try discriminate.
  - now rewrite andb_false_r in H.
  - apply andb_prop in H. destruct H as [_ H].
    apply andb_prop in H. destruct H as [H _].
    apply String.eqb_eq in H. subst c'. simpl. tauto.
Qed.

(** Removing the scoped directory restores the disk when everything
    written since its creation lies below it. *)
Lemma rmtree_restores f extra :
  (forall e, In e extra -> is_prefix ["tmp"; fresh_name f] (fst e) = true) ->
  rmtree (mkFS (["tmp"; fresh_name f] :: dirs f) (extra ++ files f)%list)
         ["tmp"; fresh_name f] = f.
Proof.
  intros Hextra. unfold rmtree. cbn [dirs files filter].
  rewrite (is_prefix_refl ["tmp"; fresh_name f]). cbn [negb].
  assert (Hd : filter (fun p => negb (is_prefix ["tmp"; fresh_name f] p)) (dirs f) = dirs f).
  { pose proof (fresh_name_unused f) as Hfresh.
    induction (dirs f) as [|p l IH]; [reflexivity|]. cbn [filter].
    destruct (is_prefix ["tmp"; fresh_name f] p) eqn:E.
    - exfalso. apply (Hfresh p); [now left | now apply under_fresh_has_name].
    - cbn [negb]. f_equal. apply IH. intros q Hq. apply Hfresh. now right. }
  assert (Hf : filter (fun e => negb (is_prefix ["tmp"; fresh_name f] (fst e)))
                      (extra ++ files f)%list = files f).
  { rewrite filter_app.
    replace (filter _ extra) with (@nil (Path * bytes)).
    - cbn [app]. pose proof (fresh_name_unused_files f) as Hfresh.
      induction (files f) as [|e l IH]; [reflexivity|]. cbn [filter].
      destruct (is_prefix ["tmp"; fresh_name f] (fst e)) eqn:E.
      + exfalso. apply (Hfresh e); [now left | now apply under_fresh_has_name].
      + cbn [negb]. f_equal. apply IH. intros q Hq. apply Hfresh. now right.
    - symmetry. induction extra as [|e l IH]; [reflexivity|]. cbn [filter].
      rewrite (Hextra e) by now left. cbn [negb]. apply IH.
      intros q Hq. apply Hextra. now right. }
  rewrite Hd, Hf. destruct f; reflexivity.
Qed.




(** ** Requests that reach the model *)

(** What [main] shows after the request. *)
Lemma main_after_request env up w :
  main_transcribe_pressed env up w
  = match process_audio_file env up w with
    | (Ret v, w') =>
        if truthy v then
          (Ret tt,
           add_event
             (add_event
                (add_event
                   (add_event
                      (add_event
                         (add_event w' (StSuccess "✅ Transcription completed!"))
                         (StSubheader "Transcription Result"))
                      (StTextArea "Transcribed Text" v))
                   (StMarkdown "### 📋 Copy to Clipboard"))
                (StCode v))
             (StInfo "💡 Click on the code block above to copy the text to your clipboard."))
        else (Ret tt, add_event w' (StError failure_message))
    | (Raise e, w') => (Raise e, w')
    end.
Proof.
  unfold main_transcribe_pressed, bind.
  destruct (process_audio_file env up w) as [[v|e] w']; [|reflexivity].
  destruct (truthy v); reflexivity.
Qed.









(** ** Requests that fail *)

Lemma log_add_event w e : log (add_event w e) = (log w ++ [e])%list.
Proof. reflexivity. Qed.

Lemma log_set_fs w f : log (set_fs w f) = log w.
Proof. reflexivity. Qed.

Lemma fs_add_event w e : fs (add_event w e) = fs w.
Proof. reflexivity. Qed.

Lemma ffmpeg_on_path_add_event w e : ffmpeg_on_path (add_event w e) = ffmpeg_on_path w.
Proof. reflexivity. Qed.

Lemma convert_to_wav_unavailable env i o w :
  ffmpeg_on_path w = false ->
  convert_to_wav env i o w
  = (Ret false, add_event (add_event w (CallConvertToWav i o))
                          (StError ffmpeg_missing_message)).
Proof.
  destruct w as [f t c m l]. cbn [ffmpeg_on_path]. intros ->. reflexivity.
Qed.

Lemma world_saved_keeps_tool up w :
  ffmpeg_on_path (world_saved up w) = ffmpeg_on_path w.
Proof.
  unfold world_saved.
  destruct (save_upload_outcome (temp_dir w) up (world_in_block w))
    as [(fs' & _ & E)|(e & _ & E)]; rewrite E; reflexivity.
Qed.

(** X6.  When the tool is missing, a request for a saved upload that
    needs conversion returns [None] without starting the tool, calling
    [transcribe] or constructing the model, and the user is shown the
    installation guidance followed, from [main], by the general failure
    message. *)
Theorem missing_tool_fails_request env uploaded_file w :
  ffmpeg_on_path w = false ->
  mem (file_extension uploaded_file) FUNASR_SUPPORTED_FORMATS = false ->
  saved uploaded_file w ->
  let final := process_audio_file env uploaded_file w in
  fst final = Ret PyNone /\
  errors_shown (log (snd final)) = (errors_shown (log w) ++ [ffmpeg_missing_message])%list /\
  tool_runs (log (snd final)) = tool_runs (log w) /\
  calls_transcribe (log (snd final)) = calls_transcribe (log w) /\
  model_inits (log (snd final)) = model_inits (log w) /\
  errors_shown (log (snd (main_transcribe_pressed env uploaded_file w)))
  = (errors_shown (log w) ++ [ffmpeg_missing_message; failure_message])%list.
Proof.
  intros Htool Hext Hsaved final. subst final.
  assert (Hp : exists w',
             process_audio_file env uploaded_file w = (Ret PyNone, w') /\
             log w' = (log w ++ [StInfo ("Converting " ++ file_extension uploaded_file
                                           ++ " to WAV format...");
                                 CallConvertToWav (input_path uploaded_file w) (output_path w);
                                 StError ffmpeg_missing_message])%list).
  { rewrite process_audio_file_block, (saved_block _ _ Hsaved).
    rewrite (transcribe_saved_converted env _ _ _ _ Hext).
    rewrite convert_to_wav_unavailable
      by (rewrite ffmpeg_on_path_add_event; now rewrite world_saved_keeps_tool).
    eexists. split; [reflexivity|].
    unfold leave_block. cbn [snd]. rewrite log_set_fs, !log_add_event.
    rewrite (proj1 (world_saved_keeps uploaded_file w)), <- !app_assoc. reflexivity. }
  destruct Hp as (w' & Hp & Hlog).
  rewrite main_after_request, Hp. cbn [fst snd truthy].
  rewrite log_add_event, Hlog. tidy_more. rewrite <- ?app_assoc. cbn [app].
  repeat split; reflexivity.
Qed.

Lemma missing_tool_fails_request_witness :
  errors_shown (log (snd (main_transcribe_pressed Samples.env_ok Samples.clip
                            (Samples.app_world false))))
  = [ffmpeg_missing_message; failure_message].
Proof.
  exact (proj2 (proj2 (proj2 (proj2 (proj2
           (missing_tool_fails_request Samples.env_ok Samples.clip (Samples.app_world false)
              eq_refl eq_refl eq_refl)))))).
Defined.

Lemma convert_to_wav_undecodable env i o w stderr :
  ffmpeg_on_path w = true ->
  ffmpeg_tool env (fs w) i o = FfExit stderr ->
  decode stderr = None ->
  convert_to_wav env i o w
  = (Raise (UnicodeDecodeError stderr),
     add_event (add_event w (CallConvertToWav i o)) (FfmpegRun i o)).
Proof.
  destruct w as [f t c m l]. cbn [ffmpeg_on_path fs]. intros -> E Hd.
  step. rewrite E. step. rewrite Hd. reflexivity.
Qed.

(** X13.  When the tool exits with diagnostics that are not valid
    UTF-8, formatting the error message fails inside the handler: the
    request for a saved upload that needs conversion ends in
    [UnicodeDecodeError], no message is shown - neither the conversion
    error nor, from [main], the general failure message - and no
    transcription is attempted. *)
Theorem undecodable_diagnostics_escape env uploaded_file w stderr :
  saved uploaded_file w ->
  mem (file_extension uploaded_file) FUNASR_SUPPORTED_FORMATS = false ->
  ffmpeg_on_path w = true ->
  ffmpeg_tool env (fs (world_saved uploaded_file w))
              (input_path uploaded_file w) (output_path w) = FfExit stderr ->
  decode stderr = None ->
  let final := process_audio_file env uploaded_file w in
  fst final = Raise (UnicodeDecodeError stderr) /\
  errors_shown (log (snd final)) = errors_shown (log w) /\
  calls_transcribe (log (snd final)) = calls_transcribe (log w) /\
  fst (main_transcribe_pressed env uploaded_file w) = Raise (UnicodeDecodeError stderr) /\
  snd (main_transcribe_pressed env uploaded_file w) = snd final.
Proof.
  intros Hsaved Hext Htool Hexit Hdec final. subst final.
  assert (Hp : exists w',
             process_audio_file env uploaded_file w
             = (Raise (UnicodeDecodeError stderr), w') /\
             log w' = (log w ++ [StInfo ("Converting " ++ file_extension uploaded_file
                                           ++ " to WAV format...");
                                 CallConvertToWav (input_path uploaded_file w) (output_path w);
                                 FfmpegRun (input_path uploaded_file w) (output_path w)])%list).
  { rewrite process_audio_file_block, (saved_block _ _ Hsaved).
    rewrite (transcribe_saved_converted env _ _ _ _ Hext).
    fold (output_path w).
    rewrite (convert_to_wav_undecodable env _ _ _ stderr)
      by (rewrite ?ffmpeg_on_path_add_event, ?fs_add_event, ?world_saved_keeps_tool;
          assumption).
    eexists. split; [reflexivity|].
    unfold leave_block. cbn [snd]. rewrite log_set_fs, !log_add_event.
    rewrite (proj1 (world_saved_keeps uploaded_file w)), <- !app_assoc. reflexivity. }
  destruct Hp as (w' & Hp & Hlog).
  rewrite main_after_request, Hp. cbn [fst snd].
  rewrite Hlog. tidy_more. repeat split; reflexivity.
Qed.

Lemma undecodable_diagnostics_escape_witness :
  fst (process_audio_file (Samples.app_env (FfExit [xff]) Loaded Samples.hello)
         Samples.clip (Samples.app_world true))
  = Raise (UnicodeDecodeError [xff]).
Proof.
  exact (proj1 (undecodable_diagnostics_escape
                  (Samples.app_env (FfExit [xff]) Loaded Samples.hello)
                  Samples.clip (Samples.app_world true) [xff]
                  eq_refl eq_refl eq_refl eq_refl eq_refl)).
Defined.

Lemma set_fs_back w f : set_fs (set_fs w f) (fs w) = w.
Proof. destruct w; reflexivity. Qed.

(** X15.  When the upload cannot be saved under its declared name, the
    request ends in the error of the [open] call and leaves the world as
    it was: nothing is shown, nothing is converted or transcribed, the
    model is not constructed, and the disk is unchanged.  [main] passes
    the exception on without its failure message. *)
Theorem unsaved_upload_ends_request env uploaded_file w :
  ~ saved uploaded_file w ->
  exists e,
    write_file (fs (world_in_block w)) (input_path uploaded_file w)
               (getbuffer uploaded_file) = inl e /\
    process_audio_file env uploaded_file w
    = (Raise (OSError e (input_path uploaded_file w)), w) /\
    main_transcribe_pressed env uploaded_file w
    = (Raise (OSError e (input_path uploaded_file w)), w).
Proof.
  intros Hn.
  destruct (save_upload_outcome (temp_dir w) uploaded_file (world_in_block w))
    as [(fs' & _ & E)|(e & Hw & E)].
  - exfalso. apply Hn. unfold saved. now rewrite E.
  - exists e. split; [exact Hw|].
    assert (Hp : process_audio_file env uploaded_file w
                 = (Raise (OSError e (input_path uploaded_file w)), w)).
    { rewrite process_audio_file_block, E. unfold leave_block. cbn [fst snd].
      fold (input_path uploaded_file w). f_equal.
      assert (Hr : rmtree (fs (world_in_block w)) (scoped_dir w) = fs w)
        by exact (rmtree_restores (fs w) [] (fun e H => match H with end)).
      rewrite Hr. apply set_fs_back. }
    split; [exact Hp|]. rewrite main_after_request, Hp. reflexivity.
Qed.

Lemma unsaved_upload_ends_request_witness :
  exists e,
    process_audio_file Samples.env_ok (Samples.upload "a/b.mp4") (Samples.app_world true)
    = (Raise (OSError e "/tmp/tmp_/a/b.mp4"), Samples.app_world true).
Proof.
  destruct (unsaved_upload_ends_request Samples.env_ok (Samples.upload "a/b.mp4")
              (Samples.app_world true)) as (e & _ & H & _).
  - unfold saved. vm_compute. discriminate.
  - exists e. exact H.
Defined.

(** ** A model that cannot be constructed *)

Lemma transcribe_stopped env p w cls msg :
  self_model w = false ->
  resource_cache w = false ->
  automodel_init env = LoadRaises cls msg ->
  transcribe env p w
  = (Raise StopException,
     add_event
       (add_event
          (add_event
             (add_event
                (add_event w (CallTranscribe p))
                (StSpinner "Loading speech recognition model... This may take a moment."))
             AutoModelInit)
          (StError ("Error loading model: " ++ exc_str env (ExternalError cls msg))))
       StStop).
Proof.
  destruct w as [f t c m l]. cbn [self_model resource_cache]. intros -> -> Hl.
  step. rewrite Hl. reflexivity.
Qed.

(** X14.  A failed construction of the model is not remembered: after
    [transcribe] was stopped by it, neither the instance nor the resource
    cache holds a model, the model was not run, and the error was shown
    once - so the next request attempts the construction again. *)
Theorem failed_construction_is_retried env p w cls msg :
  self_model w = false ->
  resource_cache w = false ->
  automodel_init env = LoadRaises cls msg ->
  let w1 := snd (transcribe env p w) in
  self_model w1 = false /\
  resource_cache w1 = false /\
  model_runs (log w1) = model_runs (log w) /\
  model_inits (log w1) = (model_inits (log w) + 1)%nat /\
  forall p2,
    fst (transcribe env p2 w1) = Raise StopException /\
    model_inits (log (snd (transcribe env p2 w1))) = (model_inits (log w) + 2)%nat.
Proof.
  intros Hm Hc Hl w1. subst w1.
  rewrite (transcribe_stopped env p w cls msg Hm Hc Hl).
  set (w1 := add_event _ StStop).
  assert (Hm1 : self_model w1 = false) by exact Hm.
  assert (Hc1 : resource_cache w1 = false) by exact Hc.
  assert (Hl1 : log w1 = (log w ++ [CallTranscribe p;
                 StSpinner "Loading speech recognition model... This may take a moment.";
                 AutoModelInit;
                 StError ("Error loading model: " ++ exc_str env (ExternalError cls msg));
                 StStop])%list)
    by (unfold w1; rewrite !log_add_event, <- !app_assoc; reflexivity).
  cbn [snd]. repeat split; try assumption.
  - rewrite Hl1. tidy_more. reflexivity.
  - rewrite Hl1. tidy_more. reflexivity.
  - now rewrite (transcribe_stopped env p2 w1 cls msg Hm1 Hc1 Hl).
  - rewrite (transcribe_stopped env p2 w1 cls msg Hm1 Hc1 Hl). cbn [snd].
    rewrite !log_add_event, Hl1. tidy_more. lia.
Qed.

Lemma failed_construction_is_retried_witness :
  model_inits (log (snd (transcribe Samples.env_no_model "/tmp/t/b.wav"
                           (snd (transcribe Samples.env_no_model "/tmp/t/a.wav"
                                   (Samples.app_world true)))))) = 2%nat.
Proof.
  exact (proj2 (proj2 (proj2 (proj2 (proj2
           (failed_construction_is_retried Samples.env_no_model "/tmp/t/a.wav"
              (Samples.app_world true) "OSError" "model files not found"
              eq_refl eq_refl eq_refl)))) "/tmp/t/b.wav")).
Defined.

End RequestFacts.

(* ================================================================== *)
(** * Further facts about [setup_ffmpeg.py] *)
(* ================================================================== *)

Module SetupMoreFacts.

Import Py Eff SetupFfmpeg SetupFacts.

(** ** The installer *)


(** ** The commands the script starts *)



(** ** A tool that is already installed *)



Lemma installed_tool_run host w :
  ffmpeg_on_path w = true ->
  fst (main host w) = Ret 0%Z /\
  started (snd (main host w)) = (started w ++ [FfmpegVersion])%list.
Proof.
  destruct w as [t env sys plat out st]. cbn [ffmpeg_on_path]. intros ->.
  run. outcomes; split; reflexivity.
Qed.

(** X10.  Running the script again after a run that ended with status 0
    ends with status 0 again and starts nothing but the version query:
    no package-manager command is repeated. *)
Theorem setup_is_repeatable host w :
  fst (main host w) = Ret 0%Z ->
  let again := main host (snd (main host w)) in
  fst again = Ret 0%Z /\
  started (snd again) = (started (snd (main host w)) ++ [FfmpegVersion])%list.
Proof.
  intros H0 again. subst again.
  pose proof (exit_zero_tool_available host w H0) as Hav.
  exact (installed_tool_run host (snd (main host w)) Hav).
Qed.

Lemma setup_is_repeatable_witness :
  let first := main Samples.host_ok (Samples.setup_world false [] "Linux") in
  started (snd (main Samples.host_ok (snd first)))
  = [AptGetUpdate; AptGetInstall; FfmpegVersion].
Proof.
  exact (proj2 (setup_is_repeatable Samples.host_ok
                  (Samples.setup_world false [] "Linux") eq_refl)).
Defined.

(** ** The manual instructions *)


End SetupMoreFacts.
